(** * python-libxdo: the ctypes binding [_xdo.py] and the wrapper class [xdo]

    A shallow embedding of the two modules of the package:

    - [_xdo.py]: the call table of [libxdo] and [libc] (which entry points
      carry the [_errcheck] hook, what [restype] converts the raw result to);
    - [__init__.py]: the class [xdo] with its constructor and its methods,
      and the decorator [deprecated].

    The native library is a black box.  It is represented by an oracle
    [Lib] that answers every call from the call itself and the history of the
    calls made so far; all theorems quantify over the oracle.  Python code
    runs in a state-and-exception monad whose state is the log of native
    calls and the log of warnings. *)

From Stdlib Require Import ZArith List String Ascii Bool Lia.
From Stdlib Require Import DecimalString DecimalZ DecimalPos.
From Stdlib Require Import SpecFloat.
Import ListNotations.

Local Open Scope string_scope.
Local Open Scope list_scope.
Local Open Scope Z_scope.

(** ** Python values that cross the wrapper *)

(** A [bytes] object: a list of octets, each in [0, 255]. *)
Definition bytes := list Z.

(** A [str] object: a list of code points.  Python allows every value of
    [0, 0x10FFFF], lone surrogates included. *)
Definition pystr := list Z.

(** Python's [float]: IEEE 754 binary64. *)
Definition prec : Z := 53.
Definition emax : Z := 1024.
Definition float := spec_float.

(** [datetime.timedelta], in the normalised form Python stores:
    [0 <= seconds < 86400], [0 <= microseconds < 10^6],
    [-999999999 <= days <= 999999999]. *)
Record timedelta := mk_timedelta {
  days : Z;
  seconds : Z;
  microseconds : Z
}.

(** The exceptions the wrapper can end with.  [XdoException] carries its
    message, the only argument the code gives it. *)
Inductive Exn :=
| XdoException (msg : string)
| SystemError (msg : string)
| TypeError (msg : string)
| UnicodeEncodeError (codepoint : Z)
| OverflowError (msg : string)
| ValueError (msg : string).

Inductive Result (A : Type) :=
| Ok (a : A)
| Raise (e : Exn).
Arguments Ok {A} a.
Arguments Raise {A} e.

(** ** The native side *)

(** The entry points declared in [_xdo.py]. *)
Inductive NativeFn :=
| xdo_new
| xdo_version
| xdo_free
| xdo_enter_text_window
| xdo_send_keysequence_window
| xdo_focus_window
| xdo_get_focused_window
| xdo_wait_for_window_focus
| xdo_get_active_modifiers
| xdo_clear_active_modifiers
| xdo_set_active_modifiers
| free.

Definition NativeFn_eqb (f g : NativeFn) : bool :=
  match f, g with
  | xdo_new, xdo_new
  | xdo_version, xdo_version
  | xdo_free, xdo_free
  | xdo_enter_text_window, xdo_enter_text_window
  | xdo_send_keysequence_window, xdo_send_keysequence_window
  | xdo_focus_window, xdo_focus_window
  | xdo_get_focused_window, xdo_get_focused_window
  | xdo_wait_for_window_focus, xdo_wait_for_window_focus
  | xdo_get_active_modifiers, xdo_get_active_modifiers
  | xdo_clear_active_modifiers, xdo_clear_active_modifiers
  | xdo_set_active_modifiers, xdo_set_active_modifiers
  | free, free => true
  | _, _ => false
  end.

(** [func.__name__] of a ctypes function pointer: the symbol it was looked
    up under. *)
Definition __name__ (f : NativeFn) : string :=
  match f with
  | xdo_new => "xdo_new"
  | xdo_version => "xdo_version"
  | xdo_free => "xdo_free"
  | xdo_enter_text_window => "xdo_enter_text_window"
  | xdo_send_keysequence_window => "xdo_send_keysequence_window"
  | xdo_focus_window => "xdo_focus_window"
  | xdo_get_focused_window => "xdo_get_focused_window"
  | xdo_wait_for_window_focus => "xdo_wait_for_window_focus"
  | xdo_get_active_modifiers => "xdo_get_active_modifiers"
  | xdo_clear_active_modifiers => "xdo_clear_active_modifiers"
  | xdo_set_active_modifiers => "xdo_set_active_modifiers"
  | free => "free"
  end.

(** What the Python code hands to a ctypes function pointer. *)
Inductive Arg :=
| ANone                      (* None, a null pointer *)
| AInt (z : Z)               (* a Python int *)
| ABytes (b : bytes)         (* a bytes object, passed as char* *)
| AVoidP (p : Z)             (* a c_void_p object holding address p *)
| ACInt (n : Z)              (* a c_int object holding n *)
| AByref (cell : string).    (* ctypes.byref of the named local *)

Record Call := mkCall {
  fn : NativeFn;
  args : list Arg
}.

(** The native library and the process environment.

    [native_result] is the raw C result of a call (a status code, or an
    address for [xdo_new]) given the calls made before it; [out_modifiers]
    is what [xdo_get_active_modifiers] stores through its two out
    parameters (the address of the array it allocated, and the count);
    [out_window] is what [xdo_get_focused_window] stores through
    [window_ret]; [environ] is [os.environ]. *)
Record Lib := mkLib {
  native_result : Call -> list Call -> Z;
  out_modifiers : list Call -> Z * Z;
  out_window : list Call -> Z;
  environ : string -> option pystr
}.

(** [restype = c_int]: the C [int] read back as a Python int, a signed
    32-bit value. *)
Definition c_int (raw : Z) : Z := (raw + 2 ^ 31) mod 2 ^ 32 - 2 ^ 31.

(** [restype = c_void_p]: ctypes returns [None] for a null pointer and the
    address as an int otherwise. *)
Definition c_void_p (raw : Z) : option Z :=
  if raw =? 0 then None else Some raw.

(** ** _xdo.py *)

Definition XDO_ERROR : Z := 1.
Definition XDO_SUCCESS : Z := 0.
Definition CURRENTWINDOW : Z := 0.

(** [str.format] of an int: its decimal digits, with a leading minus sign
    when negative. *)
Definition format_int (z : Z) : string := NilZero.string_of_int (Z.to_int z).

(** [_errcheck(result, func, arguments)], lines 33-47.  The [arguments]
    tuple is not used by the body. *)
Definition _errcheck (result : Z) (func : NativeFn) : Result unit :=
  if negb (result =? 0) then
    Raise (XdoException
             ("Function " ++ __name__ func ++ " returned error code "
                          ++ format_int result)%string)
  else Ok tt.

(** The assignments [libxdo.<f>.errcheck = _errcheck] of the call table. *)
Definition errcheck (f : NativeFn) : bool :=
  match f with
  | xdo_enter_text_window
  | xdo_send_keysequence_window
  | xdo_focus_window
  | xdo_get_focused_window
  | xdo_wait_for_window_focus
  | xdo_get_active_modifiers
  | xdo_clear_active_modifiers
  | xdo_set_active_modifiers => true
  | xdo_new | xdo_version | xdo_free | free => false
  end.

(** ** The monad Python code runs in *)

Inductive Warning :=
| DeprecationWarning (msg : string).

Record State := mkState {
  calls : list Call;          (* native calls, oldest first *)
  warnings : list Warning     (* calls of warnings.warn, oldest first *)
}.

Definition M (A : Type) : Type := State -> Result A * State.

Definition ret {A} (a : A) : M A := fun s => (Ok a, s).
Definition raise {A} (e : Exn) : M A := fun s => (Raise e, s).
Definition bind {A B} (m : M A) (k : A -> M B) : M B :=
  fun s =>
    match m s with
    | (Ok a, s') => k a s'
    | (Raise e, s') => (Raise e, s')
    end.
Definition lift {A} (r : Result A) : M A := fun s => (r, s).

Declare Scope py_scope.
Delimit Scope py_scope with py.
Notation "x <- m ;; k" := (bind m (fun x => k))
  (at level 61, m at next level, right associativity) : py_scope.
Notation "m ;; k" := (bind m (fun _ => k))
  (at level 61, right associativity) : py_scope.
Local Open Scope py_scope.

(** [warnings.warn(msg, category=DeprecationWarning)]. *)
Definition warn (w : Warning) : M unit :=
  fun s => (Ok tt, mkState (calls s) (warnings s ++ [w])).

Section Native.

Variable lib : Lib.

(** The raw call: it is logged, and the library answers from the history
    before it. *)
Definition foreign (f : NativeFn) (a : list Arg) : M Z :=
  fun s =>
    let c := mkCall f a in
    (Ok (native_result lib c (calls s)),
     mkState (calls s ++ [c]) (warnings s)).

(** Calling an entry point whose [restype] is [c_int]: when the table
    gives it an [errcheck], the hook's result is the result of the call. *)
Definition call_int (f : NativeFn) (a : list Arg) : M unit :=
  raw <- foreign f a ;;
  if errcheck f then lift (_errcheck (c_int raw) f) else ret tt.

(** Calling [xdo_new], [restype = c_void_p], no [errcheck]. *)
Definition call_ptr (f : NativeFn) (a : list Arg) : M (option Z) :=
  raw <- foreign f a ;;
  ret (c_void_p raw).

(** Calling [free], [restype = None]. *)
Definition call_void (f : NativeFn) (a : list Arg) : M unit :=
  foreign f a ;; ret tt.

End Native.

(** ** Library functions of Python the wrapper relies on *)

(** [str.encode('utf-8')] on one code point.  Surrogates (and anything that
    is not a code point) raise [UnicodeEncodeError]. *)
Definition encode_codepoint (c : Z) : Result bytes :=
  if c <? 0 then Raise (UnicodeEncodeError c)
  else if c <? 0x80 then Ok [c]
  else if c <? 0x800 then
    Ok [Z.lor 0xC0 (Z.shiftr c 6); Z.lor 0x80 (Z.land c 0x3F)]
  else if c <? 0x10000 then
    if (0xD800 <=? c) && (c <=? 0xDFFF) then Raise (UnicodeEncodeError c)
    else Ok [Z.lor 0xE0 (Z.shiftr c 12);
             Z.lor 0x80 (Z.land (Z.shiftr c 6) 0x3F);
             Z.lor 0x80 (Z.land c 0x3F)]
  else if c <? 0x110000 then
    Ok [Z.lor 0xF0 (Z.shiftr c 18);
        Z.lor 0x80 (Z.land (Z.shiftr c 12) 0x3F);
        Z.lor 0x80 (Z.land (Z.shiftr c 6) 0x3F);
        Z.lor 0x80 (Z.land c 0x3F)]
  else Raise (UnicodeEncodeError c).

Fixpoint encode_utf8 (s : pystr) : Result bytes :=
  match s with
  | [] => Ok []
  | c :: s' =>
      match encode_codepoint c with
      | Raise e => Raise e
      | Ok b =>
          match encode_utf8 s' with
          | Raise e => Raise e
          | Ok bs => Ok (b ++ bs)
          end
      end
  end.

(** The text of a [str] literal of the ASCII range, as code points. *)
Fixpoint str_of (s : string) : pystr :=
  match s with
  | EmptyString => []
  | String a s' => Z.of_N (N_of_ascii a) :: str_of s'
  end.

(** An integer as an exact, not yet rounded, binary float [z * 2^0]. *)
Definition exact_int (z : Z) : float :=
  match z with
  | Z0 => S754_zero false
  | Zpos p => S754_finite false p 0
  | Zneg p => S754_finite true p 0
  end.

(** [float(z)]: the nearest binary64, ties to even. *)
Definition float_of_int (z : Z) : float := binary_normalize prec emax z 0 false.

(** [a / b] on ints, for [b <> 0]: the quotient rounded once to the nearest
    binary64. *)
Definition int_truediv (a b : Z) : float :=
  SFdiv prec emax (exact_int a) (exact_int b).

(** [x * y] on floats. *)
Definition float_mul (x y : float) : float := SFmul prec emax x y.

(** [int(x)] on a float: truncation toward zero. *)
Definition int_of_float (x : float) : Result Z :=
  match x with
  | S754_zero _ => Ok 0
  | S754_finite s m e =>
      let a := Z.shiftl (Zpos m) e in
      Ok (if s then - a else a)
  | S754_infinity _ =>
      Raise (OverflowError "cannot convert float infinity to integer")
  | S754_nan => Raise (ValueError "cannot convert float NaN to integer")
  end.

(** The exact length of a [timedelta] in microseconds. *)
Definition total_microseconds (td : timedelta) : Z :=
  (days td * 86400 + seconds td) * 10 ^ 6 + microseconds td.

(** [timedelta.total_seconds()]:
    [((days * 86400 + seconds) * 10**6 + microseconds) / 10**6]. *)
Definition total_seconds (td : timedelta) : float :=
  int_truediv (total_microseconds td) (10 ^ 6).

(** [timedelta(microseconds=n)] for an int [n]: normalisation by floor
    division, and [OverflowError] outside the range of days. *)
Definition timedelta_of_microseconds (n : Z) : Result timedelta :=
  let s := n / 10 ^ 6 in
  let d := s / 86400 in
  if (Z.abs d >? 999999999) then
    Raise (OverflowError
             ("days=" ++ format_int d ++ "; must have magnitude <= 999999999")%string)
  else Ok (mk_timedelta d (s mod 86400) (n mod 10 ^ 6)).

(** The invariant of a [timedelta] object. *)
Definition timedelta_ok (td : timedelta) : Prop :=
  -999999999 <= days td <= 999999999 /\
  0 <= seconds td < 86400 /\
  0 <= microseconds td < 10 ^ 6.

(** ** Arguments of the methods *)

(** [Union[str, bytes]]. *)
Inductive Payload :=
| PStr (s : pystr)
| PBytes (b : bytes).

(** Objects that are neither a [timedelta] nor an [int]. *)
Inductive Other :=
| ONone
| OFloat (x : float)
| OStr (s : pystr)
| OBytes (b : bytes).

(** The [delay] argument by its dynamic type, as the two [isinstance]
    tests see it.  A [bool] is an [int] and is [DInt 0] or [DInt 1]. *)
Inductive Delay :=
| DTimedelta (td : timedelta)
| DInt (z : Z)
| DOther (o : Other).

(** ** __init__.py *)

(** The decorator [deprecated], lines 17-28: [new_func] warns with the name
    of the wrapped function, then calls it with the same arguments. *)
Definition deprecated {A} (func__name__ : string) (func : M A) : M A :=
  warn (DeprecationWarning
          ("Call to deprecated function " ++ func__name__ ++ ".")%string) ;;
  func.

Module xdo.

(** An instance of the class: its only attribute is [self._xdo], the
    address [xdo_new] returned. *)
Record t := mk { _xdo : Z }.

Section Methods.

Variable lib : Lib.

(** What [xdo_get_active_modifiers] left in [active_mods] and
    [active_mods_n]. *)
Definition read_modifiers : M (Z * Z) :=
  fun s => (Ok (out_modifiers lib (calls s)), s).

(** What [xdo_get_focused_window] left in [window_ret]. *)
Definition read_window : M Z :=
  fun s => (Ok (out_window lib (calls s)), s).

(** [xdo.__init__], lines 34-39. *)
Definition __init__ (display : option pystr) : M t :=
  let display :=
    match display with
    | None => environ lib "DISPLAY"
    | Some d => Some d
    end in
  arg <- match display with
         | None => ret ANone
         | Some d => b <- lift (encode_utf8 d) ;; ret (ABytes b)
         end ;;
  handle <- call_ptr lib xdo_new [arg] ;;
  match handle with
  | None => raise (SystemError "Could not initialize libxdo")
  | Some p => ret (mk p)
  end.

(** [xdo.enter_text_window], lines 42-91. *)
Definition enter_text_window (self : t) (string : Payload)
    (clearmodifiers : bool) (delay : Delay) (window : Z) : M unit :=
  delay_int <-
    match delay with
    | DTimedelta td =>
        lift (int_of_float (float_mul (total_seconds td) (float_of_int 1000000)))
    | DInt z => ret z
    | DOther _ =>
        raise (TypeError "delay parameter should be either a timedelta or an int")
    end ;;
  string <-
    match string with
    | PStr s => lift (encode_utf8 s)
    | PBytes b => ret b
    end ;;
  active <-
    (if clearmodifiers then
       call_int lib xdo_get_active_modifiers
         [AInt (_xdo self); AByref "active_mods"; AByref "active_mods_n"] ;;
       m <- read_modifiers ;;
       call_int lib xdo_clear_active_modifiers
         [AInt (_xdo self); AInt window; AVoidP (fst m); ACInt (snd m)] ;;
       ret (Some m)
     else ret None) ;;
  call_int lib xdo_enter_text_window
    [AInt (_xdo self); AInt window; ABytes string; AInt delay_int] ;;
  match active with
  | Some m =>
      call_int lib xdo_set_active_modifiers
        [AInt (_xdo self); AInt window; AVoidP (fst m); ACInt (snd m)] ;;
      call_void lib free [AVoidP (fst m)]
  | None => ret tt
  end.

(** [xdo.send_keysequence_window], lines 93-151. *)
Definition send_keysequence_window (self : t) (keysequence : Payload)
    (clearmodifiers : bool) (delay : Delay) (window : Z) : M unit :=
  delay_int <-
    match delay with
    | DTimedelta td =>
        lift (int_of_float (float_mul (total_seconds td) (float_of_int 1000000)))
    | DInt z => ret z
    | DOther _ =>
        raise (TypeError "delay parameter should be either a timedelta or an int")
    end ;;
  keysequence <-
    match keysequence with
    | PStr s => lift (encode_utf8 s)
    | PBytes b => ret b
    end ;;
  active <-
    (if clearmodifiers then
       call_int lib xdo_get_active_modifiers
         [AInt (_xdo self); AByref "active_mods"; AByref "active_mods_n"] ;;
       m <- read_modifiers ;;
       call_int lib xdo_clear_active_modifiers
         [AInt (_xdo self); AInt window; AVoidP (fst m); ACInt (snd m)] ;;
       ret (Some m)
     else ret None) ;;
  call_int lib xdo_send_keysequence_window
    [AInt (_xdo self); AInt window; ABytes keysequence; AInt delay_int] ;;
  match active with
  | Some m =>
      call_int lib xdo_set_active_modifiers
        [AInt (_xdo self); AInt window; AVoidP (fst m); ACInt (snd m)] ;;
      call_void lib free [AVoidP (fst m)]
  | None => ret tt
  end.

(** [xdo.type], lines 153-162, under [@deprecated]. *)
Definition type (self : t) (string : Payload) (clearmodifiers : bool)
    (delay : Delay) (window : Z) : M unit :=
  deprecated "type"
    (delay <-
       match delay with
       | DInt z => td <- lift (timedelta_of_microseconds z) ;; ret (DTimedelta td)
       | _ => ret delay
       end ;;
     enter_text_window self string clearmodifiers delay window).

(** [xdo.focus_window], lines 164-170. *)
Definition focus_window (self : t) (window : Z) : M unit :=
  call_int lib xdo_focus_window [AInt (_xdo self); AInt window].

(** [xdo.get_focused_window], lines 172-181. *)
Definition get_focused_window (self : t) : M Z :=
  call_int lib xdo_get_focused_window [AInt (_xdo self); AByref "window_ret"] ;;
  read_window.

(** [xdo.wait_for_window_focus], lines 183-190. *)
Definition wait_for_window_focus (self : t) (window : Z) (want_focus : bool)
  : M unit :=
  call_int lib xdo_wait_for_window_focus
    [AInt (_xdo self); AInt window; AInt (if want_focus then 1 else 0)].

End Methods.

(** The defaults of the keyword arguments. *)
Definition default_clearmodifiers : bool := true.
Definition default_delay : Delay := DTimedelta (mk_timedelta 0 0 12000).
Definition default_delay_type : Delay := DInt 12000.
Definition default_window : Z := CURRENTWINDOW.

End xdo.

(** A state with nothing logged. *)
Definition start : State := mkState [] [].

(** The native calls a run adds to the log. *)
Definition calls_of {A} (m : M A) (s : State) : list Call := calls (snd (m s)).
Definition result_of {A} (m : M A) (s : State) : Result A := fst (m s).
Definition warnings_of {A} (m : M A) (s : State) : list Warning :=
  warnings (snd (m s)).

(** The calls a run appends to the log. *)
Definition added {A} (m : M A) (s : State) : list Call :=
  skipn (List.length (calls s)) (calls (snd (m s))).

(** * Vocabulary of the properties *)

(** ** The error-checking convention *)

(** The eight entry points the call table wraps with [_errcheck]. *)
Definition checked_functions : list NativeFn :=
  [xdo_enter_text_window; xdo_send_keysequence_window; xdo_focus_window;
   xdo_get_focused_window; xdo_wait_for_window_focus;
   xdo_get_active_modifiers; xdo_clear_active_modifiers;
   xdo_set_active_modifiers].

(** ** The modifier protocol *)

(** Lines 63-68 and 123-128: the delay in microseconds. *)
Definition delay_microseconds (delay : Delay) : Result Z :=
  match delay with
  | DTimedelta td =>
      int_of_float (float_mul (total_seconds td) (float_of_int 1000000))
  | DInt z => Ok z
  | DOther _ =>
      Raise (TypeError "delay parameter should be either a timedelta or an int")
  end.

(** Lines 70-75 and 130-135: the payload as bytes. *)
Definition payload_bytes (p : Payload) : Result bytes :=
  match p with
  | PStr s => encode_utf8 s
  | PBytes b => Ok b
  end.

(** The five calls of the modifier protocol, and the lone primary call. *)
Definition get_call (h : Z) : Call :=
  mkCall xdo_get_active_modifiers
    [AInt h; AByref "active_mods"; AByref "active_mods_n"].
Definition clear_call (h window : Z) (m : Z * Z) : Call :=
  mkCall xdo_clear_active_modifiers
    [AInt h; AInt window; AVoidP (fst m); ACInt (snd m)].
Definition primary_call (primary : NativeFn) (h window : Z) (b : bytes) (d : Z)
  : Call :=
  mkCall primary [AInt h; AInt window; ABytes b; AInt d].
Definition set_call (h window : Z) (m : Z * Z) : Call :=
  mkCall xdo_set_active_modifiers
    [AInt h; AInt window; AVoidP (fst m); ACInt (snd m)].
Definition free_call (m : Z * Z) : Call :=
  mkCall free [AVoidP (fst m)].

Definition modifier_protocol (primary : NativeFn) (h window : Z) (b : bytes)
    (d : Z) (m : Z * Z) : list Call :=
  [get_call h; clear_call h window m; primary_call primary h window b d;
   set_call h window m; free_call m].

(** The result code ctypes reads back for call [c] after the calls [cs]. *)
Definition result_code (lib : Lib) (c : Call) (cs : list Call) : Z :=
  c_int (native_result lib c cs).

(** What the call table makes of a call: the outcome of its [errcheck]
    hook, or plain success for an unchecked entry point. *)
Definition outcome (lib : Lib) (c : Call) (cs : list Call) : Result unit :=
  if errcheck (fn c) then _errcheck (result_code lib c cs) (fn c) else Ok tt.

(** Straight-line code: the calls of [todo] one after the other, ending at
    the first that raises. *)
Fixpoint perform (lib : Lib) (todo : list Call) (cs : list Call)
  : Result unit * list Call :=
  match todo with
  | [] => (Ok tt, cs)
  | c :: rest =>
      match outcome lib c cs with
      | Ok _ => perform lib rest (cs ++ [c])
      | Raise e => (Raise e, cs ++ [c])
      end
  end.

(** Both methods, with the entry point of the primary operation as a
    parameter. *)
Definition keyboard_op (lib : Lib) (primary : NativeFn) (self : xdo.t)
    (payload : Payload) (clearmodifiers : bool) (delay : Delay) (window : Z)
  : M unit :=
  fun s =>
    match delay_microseconds delay with
    | Raise e => (Raise e, s)
    | Ok d =>
        match payload_bytes payload with
        | Raise e => (Raise e, s)
        | Ok b =>
            let h := xdo._xdo self in
            let todo :=
              if clearmodifiers then
                modifier_protocol primary h window b d
                  (out_modifiers lib (calls s ++ [get_call h]))
              else [primary_call primary h window b d] in
            let (r, cs) := perform lib todo (calls s) in
            (r, mkState cs (warnings s))
        end
    end.

(** ** The two keyboard methods under one name *)

Inductive KeyboardMethod :=
| EnterText
| SendKeysequence.

Definition primary_of (k : KeyboardMethod) : NativeFn :=
  match k with
  | EnterText => xdo_enter_text_window
  | SendKeysequence => xdo_send_keysequence_window
  end.

Definition run_method (lib : Lib) (k : KeyboardMethod)
  : xdo.t -> Payload -> bool -> Delay -> Z -> M unit :=
  match k with
  | EnterText => xdo.enter_text_window lib
  | SendKeysequence => xdo.send_keysequence_window lib
  end.

(** The calls of the modifier handling, by entry point. *)
Definition modifier_handling (f : NativeFn) : bool :=
  match f with
  | xdo_get_active_modifiers | xdo_clear_active_modifiers
  | xdo_set_active_modifiers | free => true
  | _ => false
  end.

(** The calls a method is going to attempt once its arguments are
    converted. *)
Definition planned (lib : Lib) (k : KeyboardMethod) (h window : Z)
    (clearmodifiers : bool) (b : bytes) (d : Z) (cs : list Call) : list Call :=
  if clearmodifiers then
    modifier_protocol (primary_of k) h window b d
      (out_modifiers lib (cs ++ [get_call h]))
  else [primary_call (primary_of k) h window b d].

(** ** Construction, and the deprecated alias *)

(** The display name the constructor settles on: the argument, or the
    environment's [DISPLAY]. *)
Definition chosen_display (lib : Lib) (display : option pystr) : option pystr :=
  match display with
  | None => environ lib "DISPLAY"
  | Some d => Some d
  end.

(** The specification's words for [type]: one deprecation warning, then
    literal-text entry with the integer delay turned into a duration. *)
Definition type_spec (lib : Lib) (self : xdo.t) (payload : Payload)
    (clearmodifiers : bool) (z : Z) (window : Z) : M unit :=
  fun s =>
    let s' := mkState (calls s)
                (warnings s ++ [DeprecationWarning "Call to deprecated function type."]) in
    match timedelta_of_microseconds z with
    | Raise e => (Raise e, s')
    | Ok td =>
        xdo.enter_text_window lib self payload clearmodifiers (DTimedelta td)
          window s'
    end.

(** ** Concrete libraries for the examples *)

Definition string_eqb_DISPLAY (name : string) : bool := String.eqb name "DISPLAY".

(** A library in which every call succeeds: [xdo_new] returns the address
    4096, every status code is 0, one modifier is active (its snapshot lives
    at address 28672) and window 77 has the focus; [DISPLAY] is [":0"]. *)
Definition lib_ok : Lib :=
  mkLib (fun c _ => match fn c with xdo_new => 4096 | _ => 0 end)
        (fun _ => (28672, 1))
        (fun _ => 77)
        (fun name => if string_eqb_DISPLAY name then Some (str_of ":0") else None).

(** The same library, except that entry point [f] reports the failure
    code [XDO_ERROR]. *)
Definition lib_failing (f : NativeFn) : Lib :=
  mkLib (fun c _ =>
           if NativeFn_eqb (fn c) f then XDO_ERROR
           else match fn c with xdo_new => 4096 | _ => 0 end)
        (fun _ => (28672, 1))
        (fun _ => 77)
        (fun name => if string_eqb_DISPLAY name then Some (str_of ":0") else None).

(** An instance whose handle is the address 4096. *)
Definition ctx : xdo.t := xdo.mk 4096.

(** A library whose [xdo_new] cannot reach any display, in an environment
    without [DISPLAY]. *)
Definition lib_unreachable : Lib :=
  mkLib (fun _ _ => 0) (fun _ => (0, 0)) (fun _ => 0) (fun _ => None).

(** ** Code points, octets and bounded checks *)

(** The surrogate range, which [str.encode('utf-8')] refuses. *)
Definition is_surrogate (c : Z) : bool := (0xD800 <=? c) && (c <=? 0xDFFF).

(** A code point a [str] can hold. *)
Definition codepoint (c : Z) : Prop := 0 <= c <= 0x10FFFF.

Definition octet (x : Z) : Prop := 0 <= x <= 255.

(** [p] holds on [count] consecutive integers from [first]. *)
Fixpoint all_from (p : Z -> bool) (first : Z) (count : nat) : bool :=
  match count with
  | O => true
  | S k => p first && all_from p (first + 1) k
  end.

(** The delay a duration of [n] microseconds (less than a second) is
    converted to is [n] or [n - 1]. *)
Definition loses_at_most_one (n : Z) : bool :=
  match delay_microseconds (DTimedelta (mk_timedelta 0 0 n)) with
  | Ok v => (n - 1 <=? v) && (v <=? n)
  | Raise _ => false
  end.

(** The delay a duration of [k] whole milliseconds is converted to is
    [1000 * k]. *)
Definition millisecond_exact (k : Z) : bool :=
  match delay_microseconds (DTimedelta (mk_timedelta 0 0 (1000 * k))) with
  | Ok v => v =? 1000 * k
  | Raise _ => false
  end.

(** The delay a duration of [k] whole seconds is converted to is
    [10^6 * k]. *)
Definition second_exact (k : Z) : bool :=
  match delay_microseconds (DTimedelta (mk_timedelta 0 k 0)) with
  | Ok v => v =? 1000000 * k
  | Raise _ => false
  end.

(** ** The methods of an instance, as one type *)

Inductive Invocation :=
| call_enter_text_window (string : Payload) (clearmodifiers : bool)
    (delay : Delay) (window : Z)
| call_send_keysequence_window (keysequence : Payload) (clearmodifiers : bool)
    (delay : Delay) (window : Z)
| call_type (string : Payload) (clearmodifiers : bool) (delay : Delay)
    (window : Z)
| call_focus_window (window : Z)
| call_get_focused_window
| call_wait_for_window_focus (window : Z) (want_focus : bool).

(** Running a method for its effects; the value [get_focused_window]
    returns is dropped. *)
Definition invoke (lib : Lib) (self : xdo.t) (i : Invocation) : M unit :=
  match i with
  | call_enter_text_window p c d w => xdo.enter_text_window lib self p c d w
  | call_send_keysequence_window p c d w =>
      xdo.send_keysequence_window lib self p c d w
  | call_type p c d w => xdo.type lib self p c d w
  | call_focus_window w => xdo.focus_window lib self w
  | call_get_focused_window =>
      bind (xdo.get_focused_window lib self) (fun _ => ret tt)
  | call_wait_for_window_focus w f => xdo.wait_for_window_focus lib self w f
  end.

(** A call that neither releases nor replaces the handle, and that
    carries it unless it is [free] of the snapshot. *)
Definition keeps_handle (self : xdo.t) (c : Call) : Prop :=
  fn c <> xdo_free /\ fn c <> xdo_new /\ fn c <> xdo_version /\
  (fn c = free \/ hd_error (args c) = Some (AInt (xdo._xdo self))).

(** The state after [warnings.warn] in the decorator of [type]. *)
Definition warned (s : State) : State :=
  mkState (calls s)
    (warnings s ++ [DeprecationWarning "Call to deprecated function type."]).

(** The message [_errcheck] raises with. *)
Definition errcheck_message (f : NativeFn) (code : Z) : string :=
  ("Function " ++ __name__ f ++ " returned error code " ++ format_int code)%string.

(** * Properties *)

(** ** The error-checking convention *)

Lemma checked_functions_errcheck f :
  In f checked_functions <-> errcheck f = true.
Proof.
  split.
  - intros H. repeat (destruct H as [<- | H]; [reflexivity |]). destruct H.
  - destruct f; simpl; intros H; try discriminate H; tauto.
Qed.

Lemma errcheck_zero func : _errcheck 0 func = Ok tt.
Proof. reflexivity. Qed.

Lemma errcheck_nonzero result func :
  result <> 0 ->
  _errcheck result func =
    Raise (XdoException ("Function " ++ __name__ func
                           ++ " returned error code " ++ format_int result)%string).
Proof.
  intros H. unfold _errcheck.
  destruct (Z.eqb_spec result 0) as [E | E]; [contradiction | reflexivity].
Qed.

Lemma call_int_run lib f a s :
  call_int lib f a s =
    ((if errcheck f
      then _errcheck (c_int (native_result lib (mkCall f a) (calls s))) f
      else Ok tt),
     mkState (calls s ++ [mkCall f a]) (warnings s)).
Proof.
  unfold call_int, bind, foreign, lift, ret.
  destruct (errcheck f); [| reflexivity].
  destruct (_errcheck _ f); reflexivity.
Qed.

(** The decimal rendering of the code determines the code. *)
Lemma format_int_inj x y : format_int x = format_int y -> x = y.
Proof.
  unfold format_int. intros H.
  apply DecimalZ.to_int_inj.
  assert (N : forall z, Z.to_int z <> Decimal.Pos Decimal.Nil /\
                        Z.to_int z <> Decimal.Neg Decimal.Nil).
  { intros [| p | p]; simpl; split; try discriminate;
      intros E; injection E as E;
      revert E; apply DecimalPos.Unsigned.to_uint_nonnil. }
  assert (Sx : Some (Z.to_int x) = Some (Z.to_int y)).
  { rewrite <- (NilZero.isi (Z.to_int x)) by apply N.
    rewrite <- (NilZero.isi (Z.to_int y)) by apply N.
    now rewrite H. }
  now injection Sx.
Qed.

Lemma string_app_inv_head (p a b : string) :
  (p ++ a = p ++ b)%string -> a = b.
Proof.
  induction p as [| c p IH]; simpl; intros H; [exact H |].
  injection H as H. now apply IH.
Qed.

(** X1. The message of the exception determines both the function and
    the code: two failures with the same message are failures of the same
    entry point with the same result code. *)
Lemma errcheck_message_inj f g x y :
  ("Function " ++ __name__ f ++ " returned error code " ++ format_int x
   = "Function " ++ __name__ g ++ " returned error code " ++ format_int y)%string ->
  f = g /\ x = y.
Proof.
  intros H.
  destruct f, g; try (simpl in H; discriminate H);
    (split; [reflexivity |]);
    apply format_int_inj;
    do 3 apply string_app_inv_head in H; exact H.
Qed.

(** Equal messages of [xdo_focus_window] with code 1. *)
Lemma errcheck_message_inj_focus :
  xdo_focus_window = xdo_focus_window /\ 1 = 1.
Proof.
  exact (errcheck_message_inj xdo_focus_window xdo_focus_window 1 1 eq_refl).
Defined.

(** C1. Each of the eight native calls wrapped with the error-checking
    convention raises [XdoException] when the native result code is not
    zero, with a message made of the name of the failing function and the
    decimal digits of that very code; when the code is zero nothing is
    raised and the checked result is [None]. *)
Theorem errcheck_convention (lib : Lib) (f : NativeFn) (a : list Arg) (s : State) :
  In f checked_functions ->
  let code := c_int (native_result lib (mkCall f a) (calls s)) in
  result_of (call_int lib f a) s =
    if code =? 0 then Ok tt
    else Raise (XdoException ("Function " ++ __name__ f
                                ++ " returned error code "
                                ++ format_int code)%string).
Proof.
  intros Hf code. apply checked_functions_errcheck in Hf.
  unfold result_of. rewrite call_int_run, Hf. cbn [fst]. fold code.
  destruct (Z.eqb_spec code 0) as [E | E].
  - rewrite E. reflexivity.
  - now apply errcheck_nonzero.
Qed.

(** ** The two keyboard methods as one protocol *)

Ltac step_call :=
  rewrite call_int_run; cbn [calls warnings fn errcheck];
  match goal with
  | |- context [_errcheck ?r ?f] => destruct (_errcheck r f)
  end; try reflexivity.

Ltac keyboard_run delay payload clearmodifiers :=
  unfold keyboard_op; unfold bind at 1;
  (destruct delay as [td | z | o]; cbn [delay_microseconds];
   [ unfold lift at 1;
     destruct (int_of_float (float_mul (total_seconds td) (float_of_int 1000000)))
       as [d | e]; [| reflexivity]
   | unfold ret at 1
   | reflexivity ]);
  unfold bind at 1;
  (destruct payload as [str | b]; cbn [payload_bytes];
   [ unfold lift at 1; destruct (encode_utf8 str) as [b | e]; [| reflexivity]
   | unfold ret at 1 ]);
  destruct clearmodifiers;
  unfold modifier_protocol, perform, outcome, call_void, xdo.read_modifiers,
    foreign, get_call, clear_call, primary_call, set_call,
    free_call, result_code;
  cbn [fn errcheck];
  unfold bind, ret;
  repeat step_call.

Lemma enter_text_window_run lib self payload clearmodifiers delay window s :
  xdo.enter_text_window lib self payload clearmodifiers delay window s =
  keyboard_op lib xdo_enter_text_window self payload clearmodifiers delay window s.
Proof.
  unfold xdo.enter_text_window.
  keyboard_run delay payload clearmodifiers.
Qed.

Lemma send_keysequence_window_run lib self payload clearmodifiers delay window s :
  xdo.send_keysequence_window lib self payload clearmodifiers delay window s =
  keyboard_op lib xdo_send_keysequence_window self payload clearmodifiers delay
    window s.
Proof.
  unfold xdo.send_keysequence_window.
  keyboard_run delay payload clearmodifiers.
Qed.

(** *** Straight-line runs *)

Lemma perform_app lib todo cs :
  exists done : list Call,
    snd (perform lib todo cs) = cs ++ done /\
    (fst (perform lib todo cs) = Ok tt -> done = todo) /\
    (exists rest, todo = done ++ rest).
Proof.
  revert cs. induction todo as [| c rest IH]; intros cs; simpl.
  - exists []. rewrite app_nil_r. repeat split; trivial. now exists [].
  - destruct (outcome lib c cs) as [[] | e].
    + destruct (IH (cs ++ [c])) as (done & E & F & (r & G)).
      exists (c :: done). rewrite E, <- app_assoc. simpl.
      repeat split; trivial.
      * intros H. now rewrite (F H).
      * exists r. now rewrite G.
    + exists [c]. simpl. repeat split; trivial.
      * discriminate.
      * now exists rest.
Qed.

(** A run that returns normally made every call of the list. *)
Lemma perform_ok lib todo cs :
  fst (perform lib todo cs) = Ok tt -> snd (perform lib todo cs) = cs ++ todo.
Proof.
  intros H. destruct (perform_app lib todo cs) as (done & E & F & _).
  now rewrite E, (F H).
Qed.

(** When the library reports success throughout, the run returns
    normally. *)
Lemma perform_all_zero lib todo cs :
  (forall c h, result_code lib c h = 0) ->
  perform lib todo cs = (Ok tt, cs ++ todo).
Proof.
  intros Z0. revert cs. induction todo as [| c rest IH]; intros cs; simpl.
  - now rewrite app_nil_r.
  - unfold outcome. rewrite Z0.
    replace (if errcheck (fn c) then _errcheck 0 (fn c) else Ok tt)
      with (@Ok unit tt) by (destruct (errcheck (fn c)); reflexivity).
    rewrite IH, <- app_assoc. reflexivity.
Qed.

Lemma added_app {A} (m : M A) s l :
  calls (snd (m s)) = calls s ++ l -> added m s = l.
Proof.
  intros H. unfold added. rewrite H.
  rewrite skipn_app, Nat.sub_diag, skipn_all. reflexivity.
Qed.

Lemma run_method_run lib k self payload clearmodifiers delay window s :
  run_method lib k self payload clearmodifiers delay window s =
  keyboard_op lib (primary_of k) self payload clearmodifiers delay window s.
Proof.
  destruct k; [apply enter_text_window_run | apply send_keysequence_window_run].
Qed.

(** Every run of a keyboard method: bad arguments raise with the state
    untouched, good ones perform the planned calls. *)
Lemma run_method_cases lib k self payload clearmodifiers delay window s :
  let run := run_method lib k self payload clearmodifiers delay window in
  match delay_microseconds delay, payload_bytes payload with
  | Raise e, _ => run s = (Raise e, s)
  | Ok _, Raise e => run s = (Raise e, s)
  | Ok d, Ok b =>
      let todo := planned lib k (xdo._xdo self) window clearmodifiers b d (calls s) in
      result_of run s = fst (perform lib todo (calls s)) /\
      calls (snd (run s)) = snd (perform lib todo (calls s)) /\
      warnings (snd (run s)) = warnings s
  end.
Proof.
  intros run. unfold run, result_of. rewrite run_method_run. unfold keyboard_op.
  destruct (delay_microseconds delay) as [d | e]; [| reflexivity].
  destruct (payload_bytes payload) as [b | e]; [| reflexivity].
  unfold planned.
  destruct (perform lib _ (calls s)) as [r cs]. simpl. auto.
Qed.

Lemma added_unchanged {A} (m : M A) s r : m s = (r, s) -> added m s = [].
Proof.
  intros H. apply added_app. rewrite H, app_nil_r. reflexivity.
Qed.

(** What a run adds is an initial part of its plan, and the whole plan
    when it returns normally. *)
Lemma run_method_added lib k self payload clearmodifiers delay window s b d :
  delay_microseconds delay = Ok d ->
  payload_bytes payload = Ok b ->
  let run := run_method lib k self payload clearmodifiers delay window in
  let todo := planned lib k (xdo._xdo self) window clearmodifiers b d (calls s) in
  (exists rest, todo = added run s ++ rest) /\
  (result_of run s = Ok tt -> added run s = todo).
Proof.
  intros Hd Hb run todo.
  pose proof (run_method_cases lib k self payload clearmodifiers delay window s) as H.
  rewrite Hd, Hb in H. cbn zeta in H. fold run todo in H.
  destruct H as (Hr & Hc & _).
  destruct (perform_app lib todo (calls s)) as (done & E & F & G).
  assert (Ha : added run s = done) by (apply added_app; now rewrite Hc).
  rewrite Ha. split; [exact G |].
  intros Hok. apply F. now rewrite <- Hr.
Qed.

(** ** The modifier protocol *)

(** C2, as stated, fails: when [xdo_get_active_modifiers] reports a
    failure, [enter_text_window] with [clearmodifiers] true raises after
    that one call, and the log is not the five-call sequence. *)
Lemma modifier_sequence_cut_short :
  let run := xdo.enter_text_window (lib_failing xdo_get_active_modifiers) ctx
               (PStr (str_of "Hi")) true xdo.default_delay CURRENTWINDOW in
  added run start = [get_call 4096] /\
  ~ (exists b d m,
       added run start =
         modifier_protocol xdo_enter_text_window 4096 CURRENTWINDOW b d m).
Proof.
  split; [reflexivity |].
  intros (b & d & m & H). vm_compute in H. discriminate H.
Qed.

(** C2, amended. Whenever [enter_text_window] or [send_keysequence_window],
    called with [clearmodifiers] true, returns without raising, the native
    calls it made are exactly [xdo_get_active_modifiers],
    [xdo_clear_active_modifiers], the primary operation,
    [xdo_set_active_modifiers] and [free] of the snapshot, in that order;
    the primary operation receives the payload as bytes and the delay in
    microseconds, and the last four calls the snapshot the first one
    produced. *)
Theorem modifier_sequence_on_return (lib : Lib) (k : KeyboardMethod)
    (self : xdo.t) (payload : Payload) (delay : Delay) (window : Z) (s : State) :
  result_of (run_method lib k self payload true delay window) s = Ok tt ->
  exists b d,
    payload_bytes payload = Ok b /\
    delay_microseconds delay = Ok d /\
    added (run_method lib k self payload true delay window) s =
      modifier_protocol (primary_of k) (xdo._xdo self) window b d
        (out_modifiers lib (calls s ++ [get_call (xdo._xdo self)])).
Proof.
  intros Hok.
  pose proof (run_method_cases lib k self payload true delay window s) as H.
  destruct (delay_microseconds delay) as [d | e] eqn:Hd;
    [| cbn zeta in H; unfold result_of in Hok; rewrite H in Hok; discriminate Hok].
  destruct (payload_bytes payload) as [b | e] eqn:Hb;
    [| cbn zeta in H; unfold result_of in Hok; rewrite H in Hok; discriminate Hok].
  exists b, d. repeat split.
  destruct (run_method_added lib k self payload true delay window s b d Hd Hb)
    as [_ F].
  exact (F Hok).
Qed.

(** The example of the specification: the text "Hi", modifier suspension
    on, the current window. *)
Lemma modifier_sequence_Hi :
  result_of (run_method lib_ok EnterText ctx (PStr (str_of "Hi")) true
               xdo.default_delay CURRENTWINDOW) start = Ok tt
  /\
  added (run_method lib_ok EnterText ctx (PStr (str_of "Hi")) true
           xdo.default_delay CURRENTWINDOW) start =
    [ mkCall xdo_get_active_modifiers
        [AInt 4096; AByref "active_mods"; AByref "active_mods_n"];
      mkCall xdo_clear_active_modifiers
        [AInt 4096; AInt 0; AVoidP 28672; ACInt 1];
      mkCall xdo_enter_text_window
        [AInt 4096; AInt 0; ABytes [72; 105]; AInt 12000];
      mkCall xdo_set_active_modifiers
        [AInt 4096; AInt 0; AVoidP 28672; ACInt 1];
      mkCall free [AVoidP 28672] ].
Proof.
  split; [reflexivity |].
  destruct (modifier_sequence_on_return lib_ok EnterText ctx
              (PStr (str_of "Hi")) xdo.default_delay CURRENTWINDOW start
              eq_refl) as (b & d & Hb & Hd & H).
  rewrite H.
  injection Hb as <-. injection Hd as <-. reflexivity.
Defined.

(** A library that reports success throughout lets both methods return
    normally: the five-call sequence is reached. *)
Lemma modifier_sequence_all_zero lib k self payload delay window s b d :
  (forall c h, result_code lib c h = 0) ->
  payload_bytes payload = Ok b ->
  delay_microseconds delay = Ok d ->
  result_of (run_method lib k self payload true delay window) s = Ok tt.
Proof.
  intros Z0 Hb Hd.
  pose proof (run_method_cases lib k self payload true delay window s) as H.
  rewrite Hd, Hb in H. cbn zeta in H. destruct H as (Hr & _).
  rewrite Hr, (perform_all_zero lib _ _ Z0). reflexivity.
Qed.

(** A failure of [xdo_get_active_modifiers] ends the method at once. *)
Lemma get_failure_stops lib k self payload delay window s b d :
  payload_bytes payload = Ok b ->
  delay_microseconds delay = Ok d ->
  result_code lib (get_call (xdo._xdo self)) (calls s) <> 0 ->
  added (run_method lib k self payload true delay window) s =
    [get_call (xdo._xdo self)].
Proof.
  intros Hb Hd H1.
  pose proof (run_method_cases lib k self payload true delay window s) as H.
  rewrite Hd, Hb in H. cbn zeta in H. destruct H as (_ & Hc & _).
  apply added_app. rewrite Hc.
  unfold planned, modifier_protocol. cbn [perform].
  unfold outcome. cbn [fn get_call errcheck].
  rewrite (errcheck_nonzero _ _ H1). reflexivity.
Qed.

(** ** Release of the snapshot *)

(** A failure of the primary operation ends the method after three calls:
    the snapshot has been allocated and is not given back. *)
Lemma primary_failure_skips_free lib k self payload delay window s b d :
  payload_bytes payload = Ok b ->
  delay_microseconds delay = Ok d ->
  let h := xdo._xdo self in
  let m := out_modifiers lib (calls s ++ [get_call h]) in
  let c1 := get_call h in
  let c2 := clear_call h window m in
  let c3 := primary_call (primary_of k) h window b d in
  result_code lib c1 (calls s) = 0 ->
  result_code lib c2 (calls s ++ [c1]) = 0 ->
  result_code lib c3 ((calls s ++ [c1]) ++ [c2]) <> 0 ->
  added (run_method lib k self payload true delay window) s = [c1; c2; c3] /\
  result_of (run_method lib k self payload true delay window) s =
    _errcheck (result_code lib c3 ((calls s ++ [c1]) ++ [c2])) (primary_of k).
Proof.
  intros Hb Hd h m c1 c2 c3 H1 H2 H3.
  pose proof (run_method_cases lib k self payload true delay window s) as H.
  rewrite Hd, Hb in H. cbn zeta in H. destruct H as (Hr & Hc & _).
  unfold planned, modifier_protocol in Hr, Hc.
  fold h in Hr, Hc. fold m in Hr, Hc. fold c1 c2 c3 in Hr, Hc.
  assert (P : perform lib [c1; c2; c3; set_call h window m; free_call m] (calls s)
              = (_errcheck (result_code lib c3 ((calls s ++ [c1]) ++ [c2]))
                   (primary_of k),
                 calls s ++ [c1; c2; c3])).
  { cbn [perform]. unfold outcome at 1. cbn [fn c1 get_call errcheck].
    rewrite H1. cbn [_errcheck Z.eqb negb].
    unfold outcome at 1. cbn [fn c2 clear_call errcheck].
    rewrite H2. cbn [_errcheck Z.eqb negb].
    unfold outcome at 1. cbn [fn c3 primary_call].
    replace (errcheck (primary_of k)) with true by (now destruct k).
    rewrite (errcheck_nonzero _ _ H3).
    rewrite <- !app_assoc. reflexivity. }
  rewrite P in Hr, Hc. split; [| exact Hr].
  apply added_app. exact Hc.
Qed.

(** C3. The code does not release the snapshot on every exit path: with a
    library whose [xdo_enter_text_window] reports failure, the method
    raises after the calls that allocate and clear, and [free] is never
    called. *)
Theorem snapshot_not_freed_on_failure :
  let run := xdo.enter_text_window (lib_failing xdo_enter_text_window) ctx
               (PStr (str_of "Hi")) true xdo.default_delay CURRENTWINDOW in
  result_of run start =
    Raise (XdoException "Function xdo_enter_text_window returned error code 1")
  /\ added run start =
       [ get_call 4096; clear_call 4096 0 (28672, 1);
         primary_call xdo_enter_text_window 4096 0 [72; 105] 12000 ]
  /\ ~ In free (map fn (added run start)).
Proof.
  repeat split.
  vm_compute. intros H.
  repeat (destruct H as [H | H]; [discriminate H |]). exact H.
Qed.

(** The same on the other method. *)
Lemma snapshot_not_freed_on_failure_keysequence :
  let run := xdo.send_keysequence_window
               (lib_failing xdo_send_keysequence_window) ctx
               (PStr (str_of "alt+Return")) true xdo.default_delay CURRENTWINDOW in
  result_of run start =
    Raise (XdoException "Function xdo_send_keysequence_window returned error code 1")
  /\ ~ In free (map fn (added run start)).
Proof.
  split; [reflexivity |].
  vm_compute. intros H.
  repeat (destruct H as [H | H]; [discriminate H |]). exact H.
Qed.

(** ** Without modifier suspension *)

(** C5. With [clearmodifiers] false, neither method makes any of the
    modifier-handling calls ([xdo_get_active_modifiers],
    [xdo_clear_active_modifiers], [xdo_set_active_modifiers], [free]): the
    only native call is the primary operation, made once the delay and the
    payload are converted. *)
Theorem no_modifier_calls_without_flag (lib : Lib) (k : KeyboardMethod)
    (self : xdo.t) (payload : Payload) (delay : Delay) (window : Z) (s : State) :
  added (run_method lib k self payload false delay window) s =
    match delay_microseconds delay, payload_bytes payload with
    | Ok d, Ok b => [primary_call (primary_of k) (xdo._xdo self) window b d]
    | _, _ => []
    end
  /\ Forall (fun c => modifier_handling (fn c) = false /\ fn c = primary_of k)
       (added (run_method lib k self payload false delay window) s).
Proof.
  pose proof (run_method_cases lib k self payload false delay window s) as H.
  assert (E : added (run_method lib k self payload false delay window) s =
    match delay_microseconds delay, payload_bytes payload with
    | Ok d, Ok b => [primary_call (primary_of k) (xdo._xdo self) window b d]
    | _, _ => []
    end).
  { destruct (delay_microseconds delay) as [d | e];
      [| eapply added_unchanged; exact H].
    destruct (payload_bytes payload) as [b | e];
      [| eapply added_unchanged; exact H].
    cbn zeta in H. destruct H as (_ & Hc & _).
    apply added_app. rewrite Hc. unfold planned. cbn [perform].
    destruct (outcome lib _ (calls s)) as [[] | e]; reflexivity. }
  split; [exact E |].
  rewrite E.
  destruct (delay_microseconds delay); [| constructor].
  destruct (payload_bytes payload); constructor; [| constructor].
  destruct k; split; reflexivity.
Qed.

(** ** The type of the delay *)

(** C7. A delay that is neither a [timedelta] nor an [int] makes both
    methods raise [TypeError] with the state as it was: no native call has
    been made. *)
Theorem delay_type_rejected (lib : Lib) (k : KeyboardMethod) (self : xdo.t)
    (payload : Payload) (clearmodifiers : bool) (o : Other) (window : Z)
    (s : State) :
  run_method lib k self payload clearmodifiers (DOther o) window s =
    (Raise (TypeError "delay parameter should be either a timedelta or an int"), s)
  /\ added (run_method lib k self payload clearmodifiers (DOther o) window) s = [].
Proof.
  pose proof (run_method_cases lib k self payload clearmodifiers (DOther o)
                window s) as H.
  cbn [delay_microseconds] in H. cbn zeta in H.
  split; [exact H | eapply added_unchanged; exact H].
Qed.

(** ** The payload *)

Example encode_utf8_Hi : encode_utf8 (str_of "Hi") = Ok [72; 105].
Proof. reflexivity. Qed.

(** U+00E9, U+20AC and U+1F600 take two, three and four bytes. *)
Example encode_utf8_multibyte :
  encode_utf8 [0xE9; 0x20AC; 0x1F600] =
    Ok [0xC3; 0xA9; 0xE2; 0x82; 0xAC; 0xF0; 0x9F; 0x98; 0x80].
Proof. reflexivity. Qed.

(** A lone surrogate cannot be encoded. *)
Example encode_utf8_surrogate :
  encode_utf8 [72; 0xD800] = Raise (UnicodeEncodeError 0xD800).
Proof. reflexivity. Qed.

Lemma primary_not_modifier_handling k : modifier_handling (primary_of k) = false.
Proof. now destruct k. Qed.

Lemma planned_primary lib k h window clearmodifiers b d cs call :
  In call (planned lib k h window clearmodifiers b d cs) ->
  fn call = primary_of k ->
  call = primary_call (primary_of k) h window b d.
Proof.
  unfold planned, modifier_protocol. intros Hin Hfn.
  destruct clearmodifiers; simpl in Hin;
    repeat (destruct Hin as [<- | Hin]; [| ]);
    try contradiction; try reflexivity;
    simpl in Hfn; destruct k; discriminate Hfn.
Qed.

(** C9. Every call of the primary operation that [enter_text_window] or
    [send_keysequence_window] makes carries the payload as bytes: the UTF-8
    encoding of a [str] payload, a [bytes] payload as it was given. *)
Theorem payload_encoding (lib : Lib) (k : KeyboardMethod) (self : xdo.t)
    (payload : Payload) (clearmodifiers : bool) (delay : Delay) (window : Z)
    (s : State) (call : Call) :
  In call (added (run_method lib k self payload clearmodifiers delay window) s) ->
  fn call = primary_of k ->
  exists b d,
    call = primary_call (primary_of k) (xdo._xdo self) window b d /\
    match payload with
    | PStr str => encode_utf8 str = Ok b
    | PBytes given => b = given
    end.
Proof.
  intros Hin Hfn.
  pose proof (run_method_cases lib k self payload clearmodifiers delay window s)
    as H.
  destruct (delay_microseconds delay) as [d | e] eqn:Hd;
    [| rewrite (added_unchanged _ _ _ H) in Hin; destruct Hin].
  destruct (payload_bytes payload) as [b | e] eqn:Hb;
    [| rewrite (added_unchanged _ _ _ H) in Hin; destruct Hin].
  destruct (run_method_added lib k self payload clearmodifiers delay window s
              b d Hd Hb) as [(rest & G) _].
  exists b, d. split.
  - apply (planned_primary lib k _ _ clearmodifiers _ _ (calls s)); [| exact Hfn].
    rewrite G. apply in_or_app. now left.
  - destruct payload; simpl in Hb; [exact Hb | now injection Hb].
Qed.

(** The text "Hi" reaches [xdo_enter_text_window] as the bytes 72, 105. *)
Lemma payload_encoding_Hi :
  exists b d,
    primary_call xdo_enter_text_window 4096 0 [72; 105] 12000 =
      primary_call xdo_enter_text_window 4096 0 b d /\
    encode_utf8 (str_of "Hi") = Ok b.
Proof.
  apply (payload_encoding lib_ok EnterText ctx (PStr (str_of "Hi")) true
           xdo.default_delay CURRENTWINDOW start
           (primary_call xdo_enter_text_window 4096 0 [72; 105] 12000)).
  - vm_compute. tauto.
  - reflexivity.
Defined.

(** A payload that cannot be encoded raises before any native call. *)
Lemma payload_unencodable lib k self str clearmodifiers delay window s d e :
  delay_microseconds delay = Ok d ->
  encode_utf8 str = Raise e ->
  run_method lib k self (PStr str) clearmodifiers delay window s = (Raise e, s).
Proof.
  intros Hd He.
  pose proof (run_method_cases lib k self (PStr str) clearmodifiers delay window s)
    as H.
  cbn [payload_bytes] in H. now rewrite Hd, He in H.
Qed.

(** ** The delay *)



(** The default delay, 12 milliseconds, is converted exactly. *)
Example default_delay_microseconds :
  delay_microseconds xdo.default_delay = Ok 12000.
Proof. reflexivity. Qed.

(** [timedelta(microseconds=n)] is a well-formed duration of exactly [n]
    microseconds. *)
Lemma timedelta_of_microseconds_exact n td :
  timedelta_of_microseconds n = Ok td ->
  timedelta_ok td /\ total_microseconds td = n.
Proof.
  unfold timedelta_of_microseconds, timedelta_ok, total_microseconds.
  change (10 ^ 6) with 1000000.
  destruct (Z.gtb_spec (Z.abs (n / 1000000 / 86400)) 999999999) as [G | G];
    [discriminate |].
  intros H. injection H as <-. cbn [days seconds microseconds].
  pose proof (Z.div_mod n 1000000 ltac:(lia)) as E1.
  pose proof (Z.mod_pos_bound n 1000000 ltac:(lia)) as B1.
  pose proof (Z.div_mod (n / 1000000) 86400 ltac:(lia)) as E2.
  pose proof (Z.mod_pos_bound (n / 1000000) 86400 ltac:(lia)) as B2.
  lia.
Qed.

(** C4. The conversion of a [timedelta] is not exact: a duration of 249
    microseconds reaches the native call as 248.  [total_seconds()] rounds
    249/10^6 to the binary64 below it, the product with 1000000 rounds to
    the binary64 just under 249, and [int] truncates. *)
Theorem timedelta_delay_loses_a_microsecond :
  let td := mk_timedelta 0 0 249 in
  timedelta_of_microseconds 249 = Ok td
  /\ total_microseconds td = 249
  /\ added (xdo.enter_text_window lib_ok ctx (PBytes [97]) false (DTimedelta td)
              CURRENTWINDOW) start =
       [primary_call xdo_enter_text_window 4096 0 [97] 248]
  /\ added (xdo.send_keysequence_window lib_ok ctx (PBytes [97]) false
              (DTimedelta td) CURRENTWINDOW) start =
       [primary_call xdo_send_keysequence_window 4096 0 [97] 248].
Proof. repeat split. Qed.

(** The two floats on the way: 249/10^6 and the product, which is
    [249 - 2^-45]. *)
Example timedelta_249_floats :
  total_seconds (mk_timedelta 0 0 249) = S754_finite false 4593239274353678 (-64)
  /\ float_mul (total_seconds (mk_timedelta 0 0 249)) (float_of_int 1000000) =
       S754_finite false 8760908650119167 (-45)
  /\ 8760908650119167 = 249 * 2 ^ 45 - 1.
Proof. repeat split. Qed.

(** The same loss for a negative duration: truncation is toward zero. *)
Example timedelta_negative_delay :
  timedelta_of_microseconds (-249) = Ok (mk_timedelta (-1) 86399 999751)
  /\ delay_microseconds (DTimedelta (mk_timedelta (-1) 86399 999751)) = Ok (-248).
Proof. repeat split. Qed.

(** ** Construction *)

Lemma init_run lib display s :
  xdo.__init__ lib display s =
    match chosen_display lib display with
    | None =>
        let c := mkCall xdo_new [ANone] in
        (match c_void_p (native_result lib c (calls s)) with
         | None => Raise (SystemError "Could not initialize libxdo")
         | Some p => Ok (xdo.mk p)
         end, mkState (calls s ++ [c]) (warnings s))
    | Some d =>
        match encode_utf8 d with
        | Raise e => (Raise e, s)
        | Ok b =>
            let c := mkCall xdo_new [ABytes b] in
            (match c_void_p (native_result lib c (calls s)) with
             | None => Raise (SystemError "Could not initialize libxdo")
             | Some p => Ok (xdo.mk p)
             end, mkState (calls s ++ [c]) (warnings s))
        end
    end.
Proof.
  unfold xdo.__init__, chosen_display.
  destruct (match display with None => environ lib "DISPLAY" | Some d => Some d end)
    as [d |].
  - unfold bind at 1. unfold bind at 1. unfold lift.
    destruct (encode_utf8 d) as [b | e]; [| reflexivity].
    unfold ret at 1, call_ptr, bind, foreign, ret. cbn zeta.
    destruct (c_void_p _); reflexivity.
  - unfold bind at 1. unfold ret at 1, call_ptr, bind, foreign, ret. cbn zeta.
    destruct (c_void_p _); reflexivity.
Qed.

(** C6. When the constructor has called [xdo_new] and the library returned
    a null pointer, it raises [SystemError]; when the pointer is not null
    the instance holds it; and in no case does the constructor raise
    [XdoException]. *)
Theorem init_failure_is_SystemError (lib : Lib) (display : option pystr)
    (s : State) (arg : Arg) :
  added (xdo.__init__ lib display) s = [mkCall xdo_new [arg]] ->
  let raw := native_result lib (mkCall xdo_new [arg]) (calls s) in
  result_of (xdo.__init__ lib display) s =
    (if raw =? 0 then Raise (SystemError "Could not initialize libxdo")
     else Ok (xdo.mk raw))
  /\ (forall msg, result_of (xdo.__init__ lib display) s <> Raise (XdoException msg)).
Proof.
  intros Hadd raw. unfold result_of.
  pose proof (init_run lib display s) as R.
  destruct (chosen_display lib display) as [d |].
  - destruct (encode_utf8 d) as [b | e].
    + cbn zeta in R.
      assert (E : mkCall xdo_new [ABytes b] = mkCall xdo_new [arg]).
      { unfold added in Hadd. rewrite R in Hadd. cbn [snd calls] in Hadd.
        rewrite skipn_app, Nat.sub_diag, skipn_all in Hadd.
        simpl in Hadd. now injection Hadd as ->. }
      rewrite R, E. cbn [fst]. fold raw. unfold c_void_p.
      destruct (raw =? 0); split; trivial; discriminate.
    + unfold added in Hadd. rewrite R in Hadd. cbn [snd] in Hadd.
      rewrite skipn_all in Hadd. discriminate Hadd.
  - cbn zeta in R.
    assert (E : mkCall xdo_new [ANone] = mkCall xdo_new [arg]).
    { unfold added in Hadd. rewrite R in Hadd. cbn [snd calls] in Hadd.
      rewrite skipn_app, Nat.sub_diag, skipn_all in Hadd.
      simpl in Hadd. now injection Hadd as <-. }
    rewrite R, E. cbn [fst]. fold raw. unfold c_void_p.
    destruct (raw =? 0); split; trivial; discriminate.
Qed.

(** No display ":99": the constructor ends with [SystemError]. *)
Lemma init_failure_unreachable :
  added (xdo.__init__ lib_unreachable (Some (str_of ":99"))) start =
    [mkCall xdo_new [ABytes [58; 57; 57]]]
  /\ result_of (xdo.__init__ lib_unreachable (Some (str_of ":99"))) start =
       Raise (SystemError "Could not initialize libxdo")
  /\ (forall msg,
        result_of (xdo.__init__ lib_unreachable (Some (str_of ":99"))) start
        <> Raise (XdoException msg)).
Proof.
  split; [reflexivity |].
  exact (init_failure_is_SystemError lib_unreachable (Some (str_of ":99")) start
           (ABytes [58; 57; 57]) eq_refl).
Defined.

(** On success the instance holds the address [xdo_new] returned. *)
Example init_success :
  xdo.__init__ lib_ok None start =
    (Ok (xdo.mk 4096), mkState [mkCall xdo_new [ABytes [58; 48]]] []).
Proof. reflexivity. Qed.

(** C10. With no display argument the constructor passes to [xdo_new] the
    UTF-8 encoding of the environment's [DISPLAY], or a null pointer when
    the variable is absent as well; with a display argument it passes the
    encoding of that very string.  A name that cannot be encoded raises
    before [xdo_new] is called. *)
Theorem display_argument (lib : Lib) (display : option pystr) (s : State) :
  match display, environ lib "DISPLAY" with
  | Some d, _ | None, Some d =>
      match encode_utf8 d with
      | Ok b => added (xdo.__init__ lib display) s = [mkCall xdo_new [ABytes b]]
      | Raise e => xdo.__init__ lib display s = (Raise e, s)
      end
  | None, None => added (xdo.__init__ lib display) s = [mkCall xdo_new [ANone]]
  end.
Proof.
  pose proof (init_run lib display s) as R. unfold chosen_display in R.
  destruct display as [d |].
  - destruct (encode_utf8 d) as [b | e]; [| exact R].
    apply added_app. now rewrite R.
  - destruct (environ lib "DISPLAY") as [d |].
    + destruct (encode_utf8 d) as [b | e]; [| exact R].
      apply added_app. now rewrite R.
    + apply added_app. now rewrite R.
Qed.

Example display_from_environment :
  added (xdo.__init__ lib_ok None) start = [mkCall xdo_new [ABytes [58; 48]]].
Proof. reflexivity. Qed.

Example display_absent :
  added (xdo.__init__ lib_unreachable None) start = [mkCall xdo_new [ANone]].
Proof. reflexivity. Qed.

(** ** The deprecated alias *)

Lemma type_run lib self payload clearmodifiers z window s :
  xdo.type lib self payload clearmodifiers (DInt z) window s =
  type_spec lib self payload clearmodifiers z window s.
Proof.
  unfold xdo.type, type_spec, deprecated.
  unfold bind at 1. unfold warn at 1. cbn iota.
  unfold bind at 1. unfold bind at 1. unfold lift.
  destruct (timedelta_of_microseconds z); reflexivity.
Qed.

(** Warnings already logged change nothing of what a keyboard method does
    natively, and the method adds none. *)
Lemma run_method_warnings lib k self payload clearmodifiers delay window cs ws ws' :
  let run := run_method lib k self payload clearmodifiers delay window in
  result_of run (mkState cs ws) = result_of run (mkState cs ws') /\
  calls_of run (mkState cs ws) = calls_of run (mkState cs ws') /\
  warnings_of run (mkState cs ws) = ws.
Proof.
  intros run.
  pose proof (run_method_cases lib k self payload clearmodifiers delay window
                (mkState cs ws)) as H.
  pose proof (run_method_cases lib k self payload clearmodifiers delay window
                (mkState cs ws')) as H'.
  fold run in H, H'. unfold result_of, calls_of, warnings_of in *.
  destruct (delay_microseconds delay) as [d | e];
    [| rewrite H, H'; repeat split].
  destruct (payload_bytes payload) as [b | e];
    [| rewrite H, H'; repeat split].
  cbn zeta in H, H'. cbn [calls warnings] in H, H'.
  destruct H as (Hr & Hc & Hw). destruct H' as (Hr' & Hc' & _).
  rewrite Hr, Hr', Hc, Hc', Hw. repeat split.
Qed.

(** C8. Called with an integer delay, the deprecated [type] makes the
    native calls, and ends with the result, of [enter_text_window] called
    with that delay as a [timedelta]; it logs one [DeprecationWarning] where
    [enter_text_window] logs none.  When the integer is outside the range
    of [timedelta], the conversion raises after the warning and no native
    call is made. *)
Theorem type_is_enter_text_window (lib : Lib) (self : xdo.t) (payload : Payload)
    (clearmodifiers : bool) (z : Z) (window : Z) (s : State) :
  let old := xdo.type lib self payload clearmodifiers (DInt z) window in
  let w := DeprecationWarning "Call to deprecated function type." in
  match timedelta_of_microseconds z with
  | Ok td =>
      let new := xdo.enter_text_window lib self payload clearmodifiers
                   (DTimedelta td) window in
      result_of old s = result_of new s /\
      calls_of old s = calls_of new s /\
      warnings_of new s = warnings s /\
      warnings_of old s = warnings s ++ [w]
  | Raise e =>
      old s = (Raise e, mkState (calls s) (warnings s ++ [w]))
  end.
Proof.
  intros old w. unfold old, result_of, calls_of, warnings_of.
  rewrite type_run. unfold type_spec. fold w.
  destruct (timedelta_of_microseconds z) as [td | e]; [| reflexivity].
  cbn zeta. destruct s as [cs ws]. cbn [calls warnings].
  destruct (run_method_warnings lib EnterText self payload clearmodifiers
              (DTimedelta td) window cs (ws ++ [w]) ws) as (Hr & Hc & Hw).
  destruct (run_method_warnings lib EnterText self payload clearmodifiers
              (DTimedelta td) window cs ws ws) as (_ & _ & Hw').
  unfold result_of, calls_of, warnings_of in *. cbn [run_method] in *.
  repeat split; assumption.
Qed.

(** What [type] does not preserve is the integer itself: 249 microseconds
    go through a [timedelta] and come out as 248, while
    [enter_text_window] passes the int 249 as it is. *)
Example type_249 :
  added (xdo.type lib_ok ctx (PBytes [97]) false (DInt 249) CURRENTWINDOW) start =
    [primary_call xdo_enter_text_window 4096 0 [97] 248]
  /\ added (xdo.enter_text_window lib_ok ctx (PBytes [97]) false (DInt 249)
              CURRENTWINDOW) start =
       [primary_call xdo_enter_text_window 4096 0 [97] 249].
Proof. split; reflexivity. Qed.

Example type_default_warns :
  xdo.type lib_ok ctx (PStr (str_of "Hi")) false xdo.default_delay_type
    CURRENTWINDOW start =
    (Ok tt,
     mkState [primary_call xdo_enter_text_window 4096 0 [72; 105] 12000]
             [DeprecationWarning "Call to deprecated function type."]).
Proof. reflexivity. Qed.

(** ** The checked calls at work *)

(** A failing [xdo_focus_window]: the exception names it and its code. *)
Lemma errcheck_convention_focus :
  In xdo_focus_window checked_functions
  /\ result_of (call_int (lib_failing xdo_focus_window) xdo_focus_window
                  [AInt 4096; AInt 5]) start =
       Raise (XdoException "Function xdo_focus_window returned error code 1").
Proof.
  split; [simpl; tauto |].
  exact (errcheck_convention (lib_failing xdo_focus_window) xdo_focus_window
           [AInt 4096; AInt 5] start
           (or_intror (or_intror (or_introl eq_refl)))).
Defined.

(** A negative code is reported with its sign; the raw value is read as a
    C [int]. *)
Example errcheck_negative :
  _errcheck (c_int 4294967295) xdo_focus_window =
    Raise (XdoException "Function xdo_focus_window returned error code -1").
Proof. reflexivity. Qed.

Example focus_then_query :
  bind (xdo.focus_window lib_ok ctx 77) (fun _ => xdo.get_focused_window lib_ok ctx)
    start =
    (Ok 77,
     mkState [mkCall xdo_focus_window [AInt 4096; AInt 77];
              mkCall xdo_get_focused_window [AInt 4096; AByref "window_ret"]] []).
Proof. reflexivity. Qed.

(** * Further properties of the code *)

(** ** Failures inside the keyboard methods *)

(** A straight-line run that raises stopped at a call whose outcome is that
    exception; the calls before it were made, the calls after it were
    not. *)
Lemma perform_raise lib todo cs e :
  fst (perform lib todo cs) = Raise e ->
  exists done c rest,
    todo = done ++ c :: rest /\
    snd (perform lib todo cs) = cs ++ done ++ [c] /\
    outcome lib c (cs ++ done) = Raise e.
Proof.
  revert cs. induction todo as [| c0 todo IH]; intros cs; simpl.
  - discriminate.
  - destruct (outcome lib c0 cs) as [[] | e0] eqn:O.
    + intros H. destruct (IH _ H) as (done & c & rest & E & F & G).
      exists (c0 :: done), c, rest. repeat split.
      * simpl. now f_equal.
      * rewrite F, <- app_assoc. reflexivity.
      * rewrite <- app_assoc in G. exact G.
    + simpl. intros H. injection H as <-.
      exists [], c0, todo. rewrite app_nil_r. repeat split; trivial.
Qed.

Lemma outcome_raise lib c cs e :
  outcome lib c cs = Raise e ->
  errcheck (fn c) = true /\
  result_code lib c cs <> 0 /\
  e = XdoException (errcheck_message (fn c) (result_code lib c cs)).
Proof.
  unfold outcome, _errcheck, errcheck_message.
  destruct (errcheck (fn c)); [| discriminate].
  destruct (Z.eqb_spec (result_code lib c cs) 0) as [E | E]; simpl;
    [discriminate |].
  intros H. injection H as <-. repeat split; trivial.
Qed.

(** X2. When a keyboard method raises after its arguments were converted,
    the exception is the [XdoException] of the last native call it made:
    that call is one of the checked entry points, its result code is not
    zero, and the message names it with that code. *)
Theorem failure_names_last_call (lib : Lib) (k : KeyboardMethod) (self : xdo.t)
    (payload : Payload) (clearmodifiers : bool) (delay : Delay) (window : Z)
    (s : State) (b : bytes) (d : Z) (e : Exn) :
  payload_bytes payload = Ok b ->
  delay_microseconds delay = Ok d ->
  result_of (run_method lib k self payload clearmodifiers delay window) s
    = Raise e ->
  exists done c,
    added (run_method lib k self payload clearmodifiers delay window) s
      = done ++ [c] /\
    errcheck (fn c) = true /\
    result_code lib c (calls s ++ done) <> 0 /\
    e = XdoException
          (errcheck_message (fn c) (result_code lib c (calls s ++ done))).
Proof.
  intros Hb Hd He.
  pose proof (run_method_cases lib k self payload clearmodifiers delay window s)
    as H.
  rewrite Hd, Hb in H. cbn zeta in H. destruct H as (Hr & Hc & _).
  rewrite Hr in He.
  destruct (perform_raise _ _ _ _ He) as (done & c & rest & _ & F & G).
  exists done, c. split.
  - apply added_app. now rewrite Hc, F.
  - now apply outcome_raise.
Qed.

(** A failing [xdo_clear_active_modifiers]: two calls, the second named. *)
Lemma failure_names_last_call_clear :
  exists done c,
    added (run_method (lib_failing xdo_clear_active_modifiers) SendKeysequence
             ctx (PBytes [108]) true (DInt 12000) CURRENTWINDOW) start
      = done ++ [c] /\
    errcheck (fn c) = true /\
    result_code (lib_failing xdo_clear_active_modifiers) c (calls start ++ done)
      <> 0 /\
    XdoException "Function xdo_clear_active_modifiers returned error code 1" =
      XdoException
        (errcheck_message (fn c)
           (result_code (lib_failing xdo_clear_active_modifiers) c
              (calls start ++ done))).
Proof.
  exact (failure_names_last_call (lib_failing xdo_clear_active_modifiers)
           SendKeysequence ctx (PBytes [108]) true (DInt 12000) CURRENTWINDOW
           start [108] 12000 _ eq_refl eq_refl eq_refl).
Defined.

(** X3. With [clearmodifiers] true, whatever the library answers, the
    native calls a keyboard method makes are an initial part of the
    sequence [xdo_get_active_modifiers], [xdo_clear_active_modifiers],
    primary operation, [xdo_set_active_modifiers], [free]: the order never
    changes and nothing else is called. *)
Theorem calls_follow_protocol (lib : Lib) (k : KeyboardMethod) (self : xdo.t)
    (payload : Payload) (delay : Delay) (window : Z) (s : State)
    (b : bytes) (d : Z) :
  payload_bytes payload = Ok b ->
  delay_microseconds delay = Ok d ->
  exists rest,
    modifier_protocol (primary_of k) (xdo._xdo self) window b d
      (out_modifiers lib (calls s ++ [get_call (xdo._xdo self)]))
    = added (run_method lib k self payload true delay window) s ++ rest.
Proof.
  intros Hb Hd.
  destruct (run_method_added lib k self payload true delay window s b d Hd Hb)
    as [H _].
  exact H.
Qed.

Lemma calls_follow_protocol_set_failure :
  exists rest,
    modifier_protocol xdo_enter_text_window 4096 0 [72; 105] 12000 (28672, 1)
    = added (run_method (lib_failing xdo_set_active_modifiers) EnterText ctx
               (PStr (str_of "Hi")) true xdo.default_delay 0) start ++ rest.
Proof.
  exact (calls_follow_protocol (lib_failing xdo_set_active_modifiers) EnterText
           ctx (PStr (str_of "Hi")) xdo.default_delay 0 start [72; 105] 12000
           eq_refl eq_refl).
Defined.

Lemma free_in_protocol primary h window b d m done c rest :
  primary <> free ->
  modifier_protocol primary h window b d m = done ++ c :: rest ->
  In free (map fn (done ++ [c])) ->
  c = free_call m.
Proof.
  unfold modifier_protocol. intros Hp E Hin.
  destruct done as [| x1 [| x2 [| x3 [| x4 [| x5 done]]]]];
    simpl in E; injection E as; subst; simpl in Hin;
    try reflexivity;
    try (repeat (destruct Hin as [Hin | Hin]; try discriminate Hin;
                 try (now symmetry in Hin)); contradiction).
  destruct done; discriminate.
Qed.

(** X4. With [clearmodifiers] true and convertible arguments, the snapshot
    is handed to [free] exactly when the method returns normally: on every
    path that raises, whichever of the four checked calls failed, [free] is
    not called. *)
Theorem free_iff_normal_return (lib : Lib) (k : KeyboardMethod) (self : xdo.t)
    (payload : Payload) (delay : Delay) (window : Z) (s : State)
    (b : bytes) (d : Z) :
  payload_bytes payload = Ok b ->
  delay_microseconds delay = Ok d ->
  (In free (map fn (added (run_method lib k self payload true delay window) s))
   <-> result_of (run_method lib k self payload true delay window) s = Ok tt).
Proof.
  intros Hb Hd.
  pose proof (run_method_cases lib k self payload true delay window s) as H.
  rewrite Hd, Hb in H. cbn zeta in H. destruct H as (Hr & Hc & _).
  destruct (run_method_added lib k self payload true delay window s b d Hd Hb)
    as [_ F].
  split.
  - intros Hin.
    destruct (result_of (run_method lib k self payload true delay window) s)
      as [[] | e]; [reflexivity | exfalso].
    symmetry in Hr.
    destruct (perform_raise _ _ _ _ Hr) as (done & c & rest & E & G & O).
    assert (A : added (run_method lib k self payload true delay window) s
                = done ++ [c]) by (apply added_app; now rewrite Hc, G).
    rewrite A in Hin. unfold planned in E.
    assert (Hp : primary_of k <> free) by (destruct k; discriminate).
    apply (free_in_protocol _ _ _ _ _ _ _ _ _ Hp E) in Hin.
    subst c. unfold outcome in O. cbn [fn free_call errcheck] in O.
    discriminate O.
  - intros R. rewrite (F R). unfold planned, modifier_protocol. simpl. tauto.
Qed.

(** A failing [xdo_set_active_modifiers]: the method raises, and the
    snapshot is not freed. *)
Lemma free_iff_normal_return_set_failure :
  ~ In free
      (map fn (added (run_method (lib_failing xdo_set_active_modifiers)
                        EnterText ctx (PStr (str_of "Hi")) true
                        xdo.default_delay 0) start))
  /\ result_of (run_method (lib_failing xdo_set_active_modifiers) EnterText ctx
                  (PStr (str_of "Hi")) true xdo.default_delay 0) start
     = Raise (XdoException "Function xdo_set_active_modifiers returned error code 1").
Proof.
  split; [| reflexivity].
  intros Hin.
  apply (free_iff_normal_return (lib_failing xdo_set_active_modifiers) EnterText
           ctx (PStr (str_of "Hi")) xdo.default_delay 0 start [72; 105] 12000
           eq_refl eq_refl) in Hin.
  discriminate Hin.
Defined.

(** ** The payload as octets *)

Lemma lor_octet a b : octet a -> octet b -> octet (Z.lor a b).
Proof.
  unfold octet. intros [Ha Ha'] [Hb Hb'].
  assert (N : 0 <= Z.lor a b) by (apply Z.lor_nonneg; lia).
  split; [exact N |].
  destruct (Z.eq_dec (Z.lor a b) 0) as [E | E]; [lia |].
  assert (L : Z.log2 (Z.lor a b) < 8).
  { rewrite Z.log2_lor by lia.
    assert (A : Z.log2 a < 8).
    { destruct (Z.eq_dec a 0) as [-> | Na]; [simpl; lia |].
      apply Z.log2_lt_pow2; simpl; lia. }
    assert (B : Z.log2 b < 8).
    { destruct (Z.eq_dec b 0) as [-> | Nb]; [simpl; lia |].
      apply Z.log2_lt_pow2; simpl; lia. }
    lia. }
  apply Z.log2_lt_pow2 in L; simpl in L; lia.
Qed.

Lemma continuation_octet x : octet (Z.lor 0x80 (Z.land x 0x3F)).
Proof.
  apply lor_octet; [unfold octet; lia |].
  change 0x3F with (Z.ones 6). rewrite Z.land_ones by lia.
  pose proof (Z.mod_pos_bound x (2 ^ 6) ltac:(lia)) as B.
  unfold octet. change (2 ^ 6) with 64 in *. lia.
Qed.

Lemma leading_octet mark c n bound :
  octet mark -> 0 <= n -> 0 <= c < bound * 2 ^ n -> 0 < bound <= 256 ->
  octet (Z.lor mark (Z.shiftr c n)).
Proof.
  intros Hm Hn Hc Hb. apply lor_octet; [exact Hm |].
  rewrite Z.shiftr_div_pow2 by lia.
  assert (P : 0 < 2 ^ n) by (apply Z.pow_pos_nonneg; lia).
  assert (U : c / 2 ^ n < bound) by (apply Z.div_lt_upper_bound; lia).
  assert (L : 0 <= c / 2 ^ n) by (apply Z.div_pos; lia).
  unfold octet. lia.
Qed.

Lemma encode_codepoint_cases c :
  (exists b, encode_codepoint c = Ok b /\ Forall octet b /\
             (1 <= List.length b <= 4)%nat /\
             0 <= c <= 0x10FFFF /\ is_surrogate c = false)
  \/ (encode_codepoint c = Raise (UnicodeEncodeError c) /\
      (c < 0 \/ 0x10FFFF < c \/ is_surrogate c = true)).
Proof.
  unfold encode_codepoint, is_surrogate.
  destruct (Z.ltb_spec c 0); [right; split; [reflexivity | lia] |].
  destruct (Z.ltb_spec c 0x80).
  { left. exists [c].
    split; [reflexivity |]. split; [| split; [simpl; lia | split; lia]].
    repeat (apply Forall_cons || apply Forall_nil). unfold octet; lia. }
  destruct (Z.ltb_spec c 0x800).
  { left. eexists.
    split; [reflexivity |]. split; [| split; [simpl; lia | split; lia]].
    repeat (apply Forall_cons || apply Forall_nil);
      try apply continuation_octet.
    apply (leading_octet _ _ 6 32); unfold octet; simpl; lia. }
  destruct (Z.ltb_spec c 0x10000).
  { destruct ((0xD800 <=? c) && (c <=? 0xDFFF)) eqn:S.
    - right. split; [reflexivity | tauto].
    - left. eexists.
      split; [reflexivity |]. split; [| split; [simpl; lia | split; lia]].
      repeat (apply Forall_cons || apply Forall_nil);
        try apply continuation_octet.
      apply (leading_octet _ _ 12 16); unfold octet; simpl; lia. }
  destruct (Z.ltb_spec c 0x110000).
  { left. eexists.
    split; [reflexivity |]. split; [| split; [simpl; lia | split; lia]].
    repeat (apply Forall_cons || apply Forall_nil);
      try apply continuation_octet.
    apply (leading_octet _ _ 18 8); unfold octet; simpl; lia. }
  right. split; [reflexivity | lia].
Qed.

(** X5. A [str] of code points without surrogates always encodes: the
    result is made of octets, between one and four for each code point. *)
Theorem encode_utf8_octets (str : pystr) :
  Forall codepoint str ->
  Forall (fun c => is_surrogate c = false) str ->
  exists b,
    encode_utf8 str = Ok b /\
    Forall octet b /\
    (List.length str <= List.length b <= 4 * List.length str)%nat.
Proof.
  induction str as [| c str IH]; intros Hc Hs.
  - exists []. repeat split; simpl; auto.
  - inversion Hc as [| ? ? Hc1 Hc2]; inversion Hs as [| ? ? Hs1 Hs2]; subst.
    destruct (IH Hc2 Hs2) as (bs & E & O & L).
    destruct (encode_codepoint_cases c) as [(b & Eb & Ob & Lb & _) | [_ Bad]].
    + exists (b ++ bs). simpl. rewrite Eb, E. repeat split.
      * apply Forall_app. now split.
      * rewrite length_app. lia.
      * rewrite length_app. lia.
    + unfold codepoint in Hc1. rewrite Hs1 in Bad.
      destruct Bad as [B | [B | B]]; [lia | lia | discriminate B].
Qed.

Lemma encode_utf8_octets_euro :
  exists b,
    encode_utf8 [0x20AC] = Ok b /\
    Forall octet b /\
    (List.length [0x20AC] <= List.length b <= 4 * List.length [0x20AC])%nat.
Proof.
  apply encode_utf8_octets.
  - repeat constructor; simpl; discriminate.
  - repeat constructor.
Defined.

Lemma encode_utf8_ascii str :
  Forall (fun c => 0 <= c < 0x80) str -> encode_utf8 str = Ok str.
Proof.
  induction 1 as [| c str Hc _ IH]; [reflexivity |].
  simpl. rewrite IH. unfold encode_codepoint.
  destruct (Z.ltb_spec c 0); [lia |].
  destruct (Z.ltb_spec c 0x80); [reflexivity | lia].
Qed.

(** X6. For text of the ASCII range it makes no difference whether the
    payload is given as [str] or as [bytes]: both methods end with the same
    result in the same state. *)
Theorem ascii_str_as_bytes (lib : Lib) (k : KeyboardMethod) (self : xdo.t)
    (str : pystr) (clearmodifiers : bool) (delay : Delay) (window : Z)
    (s : State) :
  Forall (fun c => 0 <= c < 0x80) str ->
  run_method lib k self (PStr str) clearmodifiers delay window s =
  run_method lib k self (PBytes str) clearmodifiers delay window s.
Proof.
  intros H. rewrite !run_method_run. unfold keyboard_op.
  cbn [payload_bytes]. now rewrite (encode_utf8_ascii str H).
Qed.

Lemma ascii_str_as_bytes_keysequence :
  run_method lib_ok SendKeysequence ctx (PStr (str_of "alt+Return")) true
    (DInt 12000) CURRENTWINDOW start =
  run_method lib_ok SendKeysequence ctx (PBytes (str_of "alt+Return")) true
    (DInt 12000) CURRENTWINDOW start.
Proof.
  apply ascii_str_as_bytes.
  repeat (apply Forall_cons || apply Forall_nil); simpl; lia.
Defined.

Lemma encode_utf8_surrogate_raises str c :
  In c str -> is_surrogate c = true ->
  exists c', In c' str /\ encode_utf8 str = Raise (UnicodeEncodeError c').
Proof.
  induction str as [| x str IH]; intros Hin Hs; [destruct Hin |].
  simpl.
  destruct (encode_codepoint_cases x) as [(b & Eb & _ & _ & _ & Sx) | [Ex _]].
  - destruct Hin as [-> | Hin]; [rewrite Hs in Sx; discriminate Sx |].
    destruct (IH Hin Hs) as (c' & Hin' & E).
    exists c'. rewrite Eb, E. split; [now right | reflexivity].
  - exists x. rewrite Ex. split; [now left | reflexivity].
Qed.

(** X7. A [str] payload holding a surrogate is refused before anything is
    sent: both methods raise [UnicodeEncodeError] and leave the state as it
    was, so that even with [clearmodifiers] true no native call is made
    and no snapshot is allocated. *)
Theorem surrogate_payload_rejected (lib : Lib) (k : KeyboardMethod)
    (self : xdo.t) (str : pystr) (clearmodifiers : bool) (delay : Delay)
    (window : Z) (s : State) (c d : Z) :
  In c str -> is_surrogate c = true ->
  delay_microseconds delay = Ok d ->
  exists c',
    In c' str /\
    run_method lib k self (PStr str) clearmodifiers delay window s =
      (Raise (UnicodeEncodeError c'), s).
Proof.
  intros Hin Hs Hd.
  destruct (encode_utf8_surrogate_raises str c Hin Hs) as (c' & Hin' & E).
  exists c'. split; [exact Hin' |].
  pose proof (run_method_cases lib k self (PStr str) clearmodifiers delay
                window s) as H.
  cbn [payload_bytes] in H. now rewrite Hd, E in H.
Qed.

Lemma surrogate_payload_rejected_D800 :
  exists c',
    In c' [72; 0xD800] /\
    run_method lib_ok EnterText ctx (PStr [72; 0xD800]) true xdo.default_delay
      CURRENTWINDOW start =
      (Raise (UnicodeEncodeError c'), start).
Proof.
  apply (surrogate_payload_rejected lib_ok EnterText ctx [72; 0xD800] true
           xdo.default_delay CURRENTWINDOW start 0xD800 12000).
  - simpl. tauto.
  - reflexivity.
  - reflexivity.
Defined.

(** ** The deprecated alias, other delays *)

(** [timedelta(microseconds=n)] succeeds exactly for
    [-86399999913600000000 <= n < 86400000000000000000]; the duration it
    builds is normalised and lasts [n] microseconds. *)
Lemma timedelta_of_microseconds_range (n : Z) :
  if (-86399999913600000000 <=? n) && (n <? 86400000000000000000)
  then exists td,
         timedelta_of_microseconds n = Ok td /\
         timedelta_ok td /\ total_microseconds td = n
  else exists msg, timedelta_of_microseconds n = Raise (OverflowError msg).
Proof.
  pose proof (Z.div_mod n 1000000 ltac:(lia)) as E1.
  pose proof (Z.mod_pos_bound n 1000000 ltac:(lia)) as B1.
  pose proof (Z.div_mod (n / 1000000) 86400 ltac:(lia)) as E2.
  pose proof (Z.mod_pos_bound (n / 1000000) 86400 ltac:(lia)) as B2.
  destruct (Z.leb_spec (-86399999913600000000) n) as [L | L];
    [destruct (Z.ltb_spec n 86400000000000000000) as [U | U] |]; cbn [andb].
  - destruct (timedelta_of_microseconds n) as [td | e] eqn:T.
    + exists td. split; [reflexivity |].
      now apply timedelta_of_microseconds_exact.
    + exfalso. unfold timedelta_of_microseconds in T.
      change (10 ^ 6) with 1000000 in T.
      destruct (Z.gtb_spec (Z.abs (n / 1000000 / 86400)) 999999999) as [G | G];
        [lia | discriminate T].
  - unfold timedelta_of_microseconds. change (10 ^ 6) with 1000000.
    destruct (Z.gtb_spec (Z.abs (n / 1000000 / 86400)) 999999999) as [G | G];
      [now eexists | lia].
  - unfold timedelta_of_microseconds. change (10 ^ 6) with 1000000.
    destruct (Z.gtb_spec (Z.abs (n / 1000000 / 86400)) 999999999) as [G | G];
      [now eexists | lia].
Qed.

Lemma type_cases lib self payload clearmodifiers delay window s :
  xdo.type lib self payload clearmodifiers delay window s =
    match delay with
    | DInt z =>
        match timedelta_of_microseconds z with
        | Ok td =>
            xdo.enter_text_window lib self payload clearmodifiers
              (DTimedelta td) window (warned s)
        | Raise e => (Raise e, warned s)
        end
    | _ =>
        xdo.enter_text_window lib self payload clearmodifiers delay window
          (warned s)
    end.
Proof.
  unfold xdo.type, deprecated, warned.
  unfold bind at 1. unfold warn at 1. cbn iota.
  unfold bind at 1.
  destruct delay as [td | z | o]; try reflexivity.
  unfold bind at 1. unfold lift.
  destruct (timedelta_of_microseconds z); reflexivity.
Qed.

(** X9. The integer delays [type] accepts are those of
    [-86399999913600000000 <= n < 86400000000000000000]: for these it runs
    [enter_text_window] with a normalised duration of exactly [n]
    microseconds; for any other integer it raises [OverflowError] once the
    warning is logged, and makes no native call. *)
Theorem type_delay_range (lib : Lib) (self : xdo.t) (payload : Payload)
    (clearmodifiers : bool) (n : Z) (window : Z) (s : State) :
  if (-86399999913600000000 <=? n) && (n <? 86400000000000000000)
  then exists td,
         timedelta_ok td /\ total_microseconds td = n /\
         xdo.type lib self payload clearmodifiers (DInt n) window s =
           xdo.enter_text_window lib self payload clearmodifiers
             (DTimedelta td) window (warned s)
  else exists msg,
         xdo.type lib self payload clearmodifiers (DInt n) window s =
           (Raise (OverflowError msg), warned s).
Proof.
  pose proof (timedelta_of_microseconds_range n) as R.
  rewrite type_cases.
  destruct ((-86399999913600000000 <=? n) && (n <? 86400000000000000000)).
  - destruct R as (td & -> & Hok & Htot). now exists td.
  - destruct R as (msg & ->). now exists msg.
Qed.

(** X10. Called with a delay that is not an [int], the deprecated [type]
    hands the delay to [enter_text_window] as it is: same result, same
    native calls, and one [DeprecationWarning] logged.  In particular a
    delay of a wrong type still raises [TypeError], after the warning. *)
Theorem type_passes_other_delays (lib : Lib) (self : xdo.t) (payload : Payload)
    (clearmodifiers : bool) (delay : Delay) (window : Z) (s : State) :
  (forall z, delay <> DInt z) ->
  let old := xdo.type lib self payload clearmodifiers delay window in
  let new := xdo.enter_text_window lib self payload clearmodifiers delay window in
  result_of old s = result_of new s /\
  calls_of old s = calls_of new s /\
  warnings_of old s =
    warnings s ++ [DeprecationWarning "Call to deprecated function type."].
Proof.
  intros Hd old new. unfold old, new, result_of, calls_of, warnings_of.
  rewrite type_cases.
  assert (E : match delay with
              | DInt z =>
                  match timedelta_of_microseconds z with
                  | Ok td =>
                      xdo.enter_text_window lib self payload clearmodifiers
                        (DTimedelta td) window (warned s)
                  | Raise e => (Raise e, warned s)
                  end
              | _ =>
                  xdo.enter_text_window lib self payload clearmodifiers delay
                    window (warned s)
              end
              = xdo.enter_text_window lib self payload clearmodifiers delay
                  window (warned s)).
  { destruct delay as [td | z | o]; try reflexivity. now destruct (Hd z). }
  rewrite E. destruct s as [cs ws]. unfold warned. cbn [calls warnings].
  destruct (run_method_warnings lib EnterText self payload clearmodifiers
              delay window cs
              (ws ++ [DeprecationWarning "Call to deprecated function type."])
              ws) as (Hr & Hc & Hw).
  unfold result_of, calls_of, warnings_of in *. cbn [run_method] in *.
  repeat split; assumption.
Qed.

(** [type("Hi", delay=None)]: [TypeError], one warning, no native call. *)
Lemma type_passes_other_delays_None :
  result_of (xdo.type lib_ok ctx (PStr (str_of "Hi")) true (DOther ONone) 0) start
    = Raise (TypeError "delay parameter should be either a timedelta or an int")
  /\ calls_of (xdo.type lib_ok ctx (PStr (str_of "Hi")) true (DOther ONone) 0)
       start = []
  /\ warnings_of (xdo.type lib_ok ctx (PStr (str_of "Hi")) true (DOther ONone) 0)
       start = [DeprecationWarning "Call to deprecated function type."].
Proof.
  assert (H : forall z, DOther ONone <> DInt z) by discriminate.
  destruct (type_passes_other_delays lib_ok ctx (PStr (str_of "Hi")) true
              (DOther ONone) 0 start H) as (Hr & Hc & Hw).
  rewrite Hr, Hc, Hw. repeat split.
Defined.

(** ** How exact the conversion of a duration is *)

Lemma all_from_spec p first count :
  all_from p first count = true ->
  forall n, first <= n < first + Z.of_nat count -> p n = true.
Proof.
  revert first. induction count as [| k IH]; intros first H n Hn.
  - simpl in Hn. lia.
  - cbn [all_from] in H. apply andb_true_iff in H. destruct H as [H0 H1].
    destruct (Z.eq_dec n first) as [-> | Hne]; [exact H0 |].
    apply (IH (first + 1) H1). lia.
Qed.

(** X11. For a duration of less than fifty milliseconds the delay handed
    to the native call is never more than the duration in microseconds, and
    falls short of it by one at most. *)
Theorem short_delay_loses_at_most_one (n : Z) :
  0 <= n < 50000 ->
  exists v,
    delay_microseconds (DTimedelta (mk_timedelta 0 0 n)) = Ok v /\
    n - 1 <= v <= n.
Proof.
  intros Hn.
  assert (A : all_from loses_at_most_one 0 (Z.to_nat 50000) = true)
    by (vm_cast_no_check (eq_refl true)).
  pose proof (all_from_spec _ _ _ A n ltac:(lia)) as H.
  unfold loses_at_most_one in H.
  destruct (delay_microseconds (DTimedelta (mk_timedelta 0 0 n))) as [v | e];
    [| discriminate H].
  exists v. split; [reflexivity | lia].
Qed.

Lemma short_delay_loses_at_most_one_249 :
  exists v,
    delay_microseconds (DTimedelta (mk_timedelta 0 0 249)) = Ok v /\
    249 - 1 <= v <= 249.
Proof.
  apply short_delay_loses_at_most_one. lia.
Defined.

(** X12. A duration of a whole number of milliseconds, below one second,
    is converted exactly. *)
Theorem millisecond_delay_exact (k : Z) :
  0 <= k < 1000 ->
  delay_microseconds (DTimedelta (mk_timedelta 0 0 (1000 * k))) = Ok (1000 * k).
Proof.
  intros Hk.
  assert (A : all_from millisecond_exact 0 (Z.to_nat 1000) = true)
    by (vm_cast_no_check (eq_refl true)).
  pose proof (all_from_spec _ _ _ A k ltac:(lia)) as H.
  unfold millisecond_exact in H.
  destruct (delay_microseconds (DTimedelta (mk_timedelta 0 0 (1000 * k))))
    as [v | e]; [| discriminate H].
  apply Z.eqb_eq in H. now rewrite H.
Qed.

Lemma millisecond_delay_exact_12 :
  delay_microseconds (DTimedelta (mk_timedelta 0 0 (1000 * 12))) = Ok (1000 * 12).
Proof.
  apply millisecond_delay_exact. lia.
Defined.

(** X13. A duration of a whole number of seconds, below one hour, is
    converted exactly. *)
Theorem second_delay_exact (k : Z) :
  0 <= k < 3600 ->
  delay_microseconds (DTimedelta (mk_timedelta 0 k 0)) = Ok (1000000 * k).
Proof.
  intros Hk.
  assert (A : all_from second_exact 0 (Z.to_nat 3600) = true)
    by (vm_cast_no_check (eq_refl true)).
  pose proof (all_from_spec _ _ _ A k ltac:(lia)) as H.
  unfold second_exact in H.
  destruct (delay_microseconds (DTimedelta (mk_timedelta 0 k 0)))
    as [v | e]; [| discriminate H].
  apply Z.eqb_eq in H. now rewrite H.
Qed.

Lemma second_delay_exact_2 :
  delay_microseconds (DTimedelta (mk_timedelta 0 2 0)) = Ok (1000000 * 2).
Proof.
  apply second_delay_exact. lia.
Defined.

(** ** The focus query *)

(** X14. [get_focused_window] makes exactly one native call; it returns the
    window that call stored through [window_ret] when the result code is
    zero, and otherwise raises the [XdoException] naming
    [xdo_get_focused_window] without returning a window. *)
Theorem get_focused_window_result (lib : Lib) (self : xdo.t) (s : State) :
  let c := mkCall xdo_get_focused_window
             [AInt (xdo._xdo self); AByref "window_ret"] in
  added (xdo.get_focused_window lib self) s = [c] /\
  result_of (xdo.get_focused_window lib self) s =
    if result_code lib c (calls s) =? 0
    then Ok (out_window lib (calls s ++ [c]))
    else Raise (XdoException
                  (errcheck_message xdo_get_focused_window
                     (result_code lib c (calls s)))).
Proof.
  intros c. unfold xdo.get_focused_window, result_of, added, bind.
  rewrite call_int_run. cbn [errcheck]. fold c. unfold result_code.
  destruct (Z.eqb_spec (c_int (native_result lib c (calls s))) 0) as [E | E].
  - rewrite E. cbn [_errcheck Z.eqb negb]. unfold xdo.read_window.
    cbn [fst snd calls]. split; [| reflexivity].
    now rewrite skipn_app, Nat.sub_diag, skipn_all.
  - rewrite (errcheck_nonzero _ _ E). cbn [fst snd calls]. split; [| reflexivity].
    now rewrite skipn_app, Nat.sub_diag, skipn_all.
Qed.

(** ** What no method does *)

Lemma keyboard_keeps_handle lib k self payload clearmodifiers delay window s :
  Forall (keeps_handle self)
    (added (run_method lib k self payload clearmodifiers delay window) s).
Proof.
  pose proof (run_method_cases lib k self payload clearmodifiers delay window s)
    as H.
  destruct (delay_microseconds delay) as [d | e] eqn:Hd;
    [| rewrite (added_unchanged _ _ _ H); constructor].
  destruct (payload_bytes payload) as [b | e] eqn:Hb;
    [| rewrite (added_unchanged _ _ _ H); constructor].
  destruct (run_method_added lib k self payload clearmodifiers delay window s
              b d Hd Hb) as [(rest & G) _].
  assert (P : Forall (keeps_handle self)
                (planned lib k (xdo._xdo self) window clearmodifiers b d (calls s))).
  { unfold planned, modifier_protocol, keeps_handle.
    destruct clearmodifiers, k;
      repeat (apply Forall_cons || apply Forall_nil); cbn;
      repeat split; try discriminate; tauto. }
  rewrite G in P. apply Forall_app in P. tauto.
Qed.

Lemma single_call_keeps_handle lib self f a s :
  f <> xdo_free -> f <> xdo_new -> f <> xdo_version ->
  Forall (keeps_handle self)
    (added (call_int lib f (AInt (xdo._xdo self) :: a)) s).
Proof.
  intros H1 H2 H3. unfold added. rewrite call_int_run. cbn [snd calls].
  rewrite skipn_app, Nat.sub_diag, skipn_all. simpl.
  apply Forall_cons; [| apply Forall_nil].
  unfold keeps_handle. simpl. tauto.
Qed.

(** X15. No method of an instance ever calls [xdo_free], [xdo_new] or
    [xdo_version]: the handle is never released nor replaced.  Every native
    call a method makes, [free] of the snapshot apart, carries the
    instance's handle as its first argument. *)
Theorem methods_keep_handle (lib : Lib) (self : xdo.t) (i : Invocation)
    (s : State) :
  Forall (keeps_handle self) (added (invoke lib self i) s).
Proof.
  destruct i as [p c d w | p c d w | p c d w | w | | w f]; cbn [invoke].
  - apply (keyboard_keeps_handle lib EnterText).
  - apply (keyboard_keeps_handle lib SendKeysequence).
  - unfold added. rewrite type_cases.
    destruct d as [td | z | o].
    + exact (keyboard_keeps_handle lib EnterText self p c (DTimedelta td) w
               (warned s)).
    + destruct (timedelta_of_microseconds z) as [td | e].
      * exact (keyboard_keeps_handle lib EnterText self p c (DTimedelta td) w
                 (warned s)).
      * cbn [snd warned calls]. rewrite skipn_all. constructor.
    + exact (keyboard_keeps_handle lib EnterText self p c (DOther o) w
               (warned s)).
  - apply single_call_keeps_handle; discriminate.
  - unfold added, xdo.get_focused_window, bind. rewrite call_int_run.
    cbn [errcheck].
    destruct (_errcheck _ xdo_get_focused_window); cbn [fst snd calls];
      unfold xdo.read_window, ret; cbn [fst snd calls];
      rewrite skipn_app, Nat.sub_diag, skipn_all;
      repeat constructor; simpl; auto; discriminate.
  - apply single_call_keeps_handle; discriminate.
Qed.
